(** * BierDopje provider of subliminal: a shallow embedding

    Source: [subliminal/providers/bierdopje.py].

    The provider talks to a remote service through an HTTP session, parses
    XML answers with [xml.etree.ElementTree], picks a show id, builds
    candidate subtitle records, scores them against a video and downloads
    the text of a candidate.

    Python values are embedded as follows.
    - [int] is [Z]; a value that may be [None] is an [option].
    - text is [string]; the payload of a response is a list of bytes.
    - an exception is a constructor of [exn]; a method that may raise
      returns a [Result]; a method that also talks to the network is a
      state transformer over [World], which records every request issued.
    - the collaborators that live outside the module (the XML parser, the
      encoding detector, the codec registry, the subtitle validator, the
      filename guesser with the generic guess matcher, [urllib.quote],
      the lowercasing of text and the remote service itself) are variables
      of the sections that use them. *)

From Stdlib Require Import ZArith Lia Ascii String List.
From stdpp Require Import base option list strings pretty gmap.

Local Open Scope string_scope.
Local Open Scope Z_scope.

(** ** Python built-ins used by the module *)

Module Py.

(** [str.lower] on ASCII text, for running the provider on scripted
    answers; the provider itself is stated for any lowercasing. *)
Definition lower_char (c : ascii) : ascii :=
  let n := nat_of_ascii c in
  if ((65 <=? n) && (n <=? 90))%nat then ascii_of_nat (n + 32) else c.

Fixpoint lower (s : string) : string :=
  match s with
  | EmptyString => EmptyString
  | String c s' => String (lower_char c) (lower s')
  end.

(** [str(x)] / [%d] for an integer, and [str(x)] for a value that may be
    [None], as [str.format] renders it. *)
Definition str_int (z : Z) : string := pretty z.

Definition str_opt (o : option Z) : string :=
  match o with
  | Some z => str_int z
  | None => "None"
  end.

(** [int(s)]: surrounding white space is dropped, one sign is allowed,
    then at least one decimal digit.  [None] stands for [ValueError]. *)
Definition digit (c : ascii) : option Z :=
  let n := Z.of_nat (nat_of_ascii c) in
  if (48 <=? n) && (n <=? 57) then Some (n - 48) else None.

Fixpoint digits (acc : Z) (s : string) : option Z :=
  match s with
  | EmptyString => Some acc
  | String c s' =>
      match digit c with
      | Some d => digits (10 * acc + d) s'
      | None => None
      end
  end.

Fixpoint lstrip (s : string) : string :=
  match s with
  | String c s' => if Ascii.is_space c then lstrip s' else s
  | EmptyString => EmptyString
  end.

Definition strip (s : string) : string :=
  String.rev (lstrip (String.rev (lstrip s))).

Definition unsigned (s : string) : option Z :=
  match s with
  | EmptyString => None
  | _ => digits 0 s
  end.

Definition int (s : string) : option Z :=
  match strip s with
  | String "-" t => Z.opp <$> unsigned t
  | String "+" t => unsigned t
  | t => unsigned t
  end.

(** Truth value of an optional integer and of an optional text, as [and]
    tests it: [None], [0] and the empty text are false. *)
Definition truthy_int (o : option Z) : bool :=
  match o with
  | Some z => negb (z =? 0)
  | None => false
  end.

Definition truthy_str (o : option string) : bool :=
  match o with
  | Some s => negb (String.eqb s "")
  | None => false
  end.

End Py.

(** ** Exceptions and results *)

Inductive exn : Type :=
| ProviderNotAvailable (msg : string)
| ProviderError (msg : option string)
| InvalidSubtitle
| ValueError (msg : string)
| AttributeError
| TypeError
| LookupError
| ParseError
| MissingSchema.

Inductive Result (A : Type) : Type :=
| Ok (a : A)
| Raise (e : exn).

Arguments Ok {A} a.
Arguments Raise {A} e.

#[global] Instance Result_ret : MRet Result := @Ok.
#[global] Instance Result_bind : MBind Result := λ A B f r,
  match r with
  | Ok a => f a
  | Raise e => Raise e
  end.
#[global] Instance Result_fmap : FMap Result := λ A B f r,
  match r with
  | Ok a => Ok (f a)
  | Raise e => Raise e
  end.

(** [o.attr] / [o.text] on a value that may be [None]: [AttributeError]. *)
Definition deref {A : Type} (o : option A) : Result A :=
  match o with
  | Some a => Ok a
  | None => Raise AttributeError
  end.

(** ** XML documents, as [xml.etree.ElementTree] exposes them *)

#[local] Unset Elimination Schemes.
Inductive Element : Type :=
  Elem { tag : string; text : option string; children : list Element }.
#[local] Set Elimination Schemes.

Module ET.

(** One step of a path: [name] selects the children with that tag,
    [name[1]] only the first such child of each parent. *)
Inductive step : Type :=
| Child (name : string)
| FirstChild (name : string).

Definition tagged (name : string) (e : Element) : bool :=
  String.eqb (tag e) name.

Definition select (s : step) (ctx : list Element) : list Element :=
  match s with
  | Child name => flat_map (λ e, List.filter (tagged name) (children e)) ctx
  | FirstChild name =>
      flat_map (λ e, firstn 1 (List.filter (tagged name) (children e))) ctx
  end.

Fixpoint iterfind (path : list step) (ctx : list Element) : list Element :=
  match path with
  | [] => ctx
  | s :: path' => iterfind path' (select s ctx)
  end.

(** [elem.find(path)]: the first match, or [None]. *)
Definition find (path : list step) (e : Element) : option Element :=
  head (iterfind path [e]).

End ET.

(** The paths the provider uses. *)
Definition path_error_msg : list ET.step :=
  [ET.Child "response"; ET.Child "error_msg"].
Definition path_status : list ET.step :=
  [ET.Child "response"; ET.Child "status"].
Definition path_results : list ET.step :=
  [ET.Child "response"; ET.Child "results"].
Definition path_first_showid : list ET.step :=
  [ET.Child "response"; ET.Child "results"; ET.FirstChild "result";
   ET.Child "showid"].

(** ** Data model *)

(** The two languages of the provider ([eng], [nld]) and their two-letter
    codes, which go into the request. *)
Inductive Language : Type := eng | nld.

Definition alpha2 (l : Language) : string :=
  match l with
  | eng => "en"
  | nld => "nl"
  end.

(** The fields of a video the provider reads. *)
Module Video.
Record t : Type := mk {
  tvdb_id : option Z;
  series : option string;
  season : option Z;
  episode : option Z;
  year : option Z
}.
End Video.
Abbreviation Video := Video.t.

(** [BierDopjeSubtitle]; [content] is the attribute of [Subtitle] that
    [download_subtitle] assigns, [None] until then. *)
Module BierDopjeSubtitle.

Record t : Type := mk {
  language : Language;
  season : option Z;
  episode : option Z;
  tvdb_id : option Z;
  series : option string;
  year : option Z;
  filename : option string;
  download_link : option string;
  content : option string
}.

(** [__init__] *)
Definition init (language : Language) (season episode tvdb_id : option Z)
    (series : option string) (year : option Z)
    (filename download_link : option string) : t :=
  mk language season episode tvdb_id series year filename download_link
     None.

(** [self.content = text] *)
Definition set_content (self : t) (text : string) : t :=
  mk (language self) (season self) (episode self) (tvdb_id self)
     (series self) (year self) (filename self) (download_link self)
     (Some text).

(** The tags [compute_matches] has collected when it reaches the
    filename guess: one [if ...: matches.add(...)] after the other. *)
Definition direct_matches (self : t) (video : Video) : gset string :=
  let matches : gset string := ∅ in
  let matches :=
    if Py.truthy_int (Video.tvdb_id video)
       && bool_decide (tvdb_id self = Video.tvdb_id video)
    then matches ∪ {["tvdb_id"]} else matches in
  let matches :=
    if Py.truthy_str (Video.series video)
       && bool_decide (series self = Video.series video)
    then matches ∪ {["series"]} else matches in
  let matches :=
    if Py.truthy_int (Video.season video)
       && bool_decide (season self = Video.season video)
    then matches ∪ {["season"]} else matches in
  let matches :=
    if Py.truthy_int (Video.episode video)
       && bool_decide (episode self = Video.episode video)
    then matches ∪ {["episode"]} else matches in
  let matches :=
    if bool_decide (year self = Video.year video)
    then matches ∪ {["year"]} else matches in
  matches.

Section Scorer.

(** [guessit.guess_episode_info] and the generic
    [compute_guess_matches] of the subtitle module. *)
Variable Guess : Type.
Variable guess_episode_info : string → Guess.
Variable compute_guess_matches : Video → Guess → gset string.

(** [compute_matches(self, video)]; [self.filename + '.mkv'] is a
    [TypeError] when the filename is [None]. *)
Definition compute_matches (self : t) (video : Video)
  : Result (gset string) :=
  let matches := direct_matches self video in
  match filename self with
  | None => Raise TypeError
  | Some name =>
      Ok (matches
          ∪ compute_guess_matches video
              (guess_episode_info (name +:+ ".mkv")))
  end.

End Scorer.

End BierDopjeSubtitle.
Abbreviation BierDopjeSubtitle := BierDopjeSubtitle.t.

(** ** The network and the state of a run *)

Abbreviation bytes := (list Byte.byte).

#[global] Instance byte_eq_dec : EqDecision Byte.byte := Byte.byte_eq_dec.

(** What [session.get(url, timeout=10)] gives: [requests.Timeout] is
    raised, or a response comes back. *)
Inductive HttpOutcome : Type :=
| Timeout
| Response (status_code : Z) (content : bytes).

(** The state threaded through the provider: the requests issued so far,
    oldest first. *)
Record World : Type := { requests : list string }.

(** The world after one more request. *)
Definition sent (w : World) (url : string) : World :=
  {| requests := requests w ++ [url] |}.

(** Computations that may raise and that update a state [S]. *)
Definition State (S A : Type) : Type := S → Result A * S.

#[global] Instance State_ret {S} : MRet (State S) := λ A a s, (Ok a, s).
#[global] Instance State_bind {S} : MBind (State S) := λ A B f m s,
  match m s with
  | (Ok a, s') => f a s'
  | (Raise e, s') => (Raise e, s')
  end.

Definition raise {S A : Type} (e : exn) : State S A := λ s, (Raise e, s).

(** A computation without effect on the state. *)
Definition lift {S A : Type} (r : Result A) : State S A := λ s, (r, s).

(** The methods of the provider act on the world only. *)
Abbreviation M := (State World).

Definition base_url : string := "http://api.bierdopje.com/A2B638AC5D804C2E/".

Section Provider.

(** The remote side: the outcome of a request depends on the requests
    that came before it and on its URL. *)
Variable net : list string → string → HttpOutcome.

(** [xml.etree.ElementTree.fromstring]; [None] is its [ParseError]. *)
Variable fromstring : bytes → option Element.

(** [urllib.quote]. *)
Variable quote : string → string.

(** [str.lower] on the names of the service and of the video.  The text
    of the model stands for Unicode text, whose lowercasing is taken as
    it is. *)
Variable lower : string → string.

Definition session_get (url : string) : M HttpOutcome := λ w,
  (Ok (net (requests w) url), sent w url).

(** [get(url, **params)]; [url] is the API part after [format]. *)
Definition get (url : string) : M Element :=
  r ← session_get (base_url +:+ url);
  match r with
  | Timeout => raise (ProviderNotAvailable "Timeout after 10 seconds")
  | Response status_code content =>
      if status_code =? 429 then
        raise (ProviderNotAvailable "Too Many Requests")
      else if negb (status_code =? 200) then
        raise (ProviderError
                 (Some ("Request failed with status code "
                        +:+ Py.str_int status_code)))
      else
        match fromstring content with
        | None => raise ParseError
        | Some root =>
            match ET.find path_error_msg root with
            | Some e => raise (ProviderError (text e))
            | None => mret root
            end
        end
  end.

(** *** Show identity *)

(** [result.find('showname').text.lower()] *)
Definition showname (result : Element) : Result string :=
  e ← deref (ET.find [ET.Child "showname"] result);
  t ← deref (text e);
  mret (lower t).

(** [int(e.text)] for an element that may be missing *)
Definition int_text (e : option Element) : Result Z :=
  e ← deref e;
  match text e with
  | None => Raise TypeError
  | Some t =>
      match Py.int t with
      | Some z => Ok z
      | None => Raise (ValueError "invalid literal for int()")
      end
  end.

(** [int(result.find('showid').text)] *)
Definition showid (result : Element) : Result Z :=
  int_text (ET.find [ET.Child "showid"] result).

(** One [for result in ...: if name == wanted: return id] loop; [None]
    when the loop ends without returning. *)
Fixpoint first_named (wanted : string) (results : list Element)
  : Result (option Z) :=
  match results with
  | [] => Ok None
  | result :: rest =>
      name ← showname result;
      if String.eqb name wanted then Some <$> showid result
      else first_named wanted rest
  end.

(** Iterating over [root.find(path)]: [TypeError] on [None]. *)
Definition iter (o : option Element) : Result (list Element) :=
  match o with
  | Some e => Ok (children e)
  | None => Raise TypeError
  end.

(** The body of [find_show_id] once the answer has been fetched. *)
Definition select_show_id (series : string) (year : option Z)
    (root : Element) : Result (option Z) :=
  st ← deref (ET.find path_status root);
  if bool_decide (text st = Some "false") then mret None
  else
    qualified ←
      match year with
      | Some y =>
          results ← iter (ET.find path_results root);
          first_named (series +:+ " (" +:+ Py.str_int y +:+ ")") results
      | None => mret None
      end;
    match qualified with
    | Some id => mret (Some id)
    | None =>
        results ← iter (ET.find path_results root);
        bare ← first_named series results;
        match bare with
        | Some id => mret (Some id)
        | None => Some <$> int_text (ET.find path_first_showid root)
        end
    end.

(** The method [find_show_id(series, year)] that the memoising decorator
    wraps: what runs when the arguments are not in the cache. *)
Definition find_show_id (series : string) (year : option Z)
  : M (option Z) :=
  root ← get ("FindShowByName/" +:+ quote series);
  lift (select_show_id series year root).

(** *** Subtitle query *)

(** The list comprehension at the end of [query]. *)
Definition parse_subtitles (language : Language)
    (season episode tvdb_id : option Z) (series : option string)
    (year : option Z) (results : list Element)
  : Result (list BierDopjeSubtitle) :=
  mapM (λ result,
          fn ← deref (ET.find [ET.Child "filename"] result);
          dl ← deref (ET.find [ET.Child "downloadlink"] result);
          mret (BierDopjeSubtitle.init language season episode tvdb_id
                  series year (text fn) (text dl)))
       results.

(** What [query] does with the answer to [GetAllSubsFor]. *)
Definition read_subtitles (language : Language)
    (season episode tvdb_id : option Z) (series : option string)
    (year : option Z) (root : Element) : Result (list BierDopjeSubtitle) :=
  st ← deref (ET.find path_status root);
  if bool_decide (text st = Some "false") then mret []
  else
    results ← iter (ET.find path_results root);
    parse_subtitles language season episode tvdb_id series year results.

(** ['GetAllSubsFor/{showid}/{season}/{episode}/{language}/{istvdbid}']
    after [format]. *)
Definition subs_url (showid : Z) (season episode : option Z)
    (language : string) (istvdbid : string) : string :=
  "GetAllSubsFor/" +:+ Py.str_int showid +:+ "/" +:+ Py.str_opt season
  +:+ "/" +:+ Py.str_opt episode +:+ "/" +:+ language +:+ "/" +:+ istvdbid.

(** The second half of [query]: the request for the subtitles of the
    show [showid] and the reading of its answer. *)
Definition search (language : Language) (season episode tvdb_id : option Z)
    (series : option string) (year : option Z) (showid : Z)
    (istvdbid : string) : M (list BierDopjeSubtitle) :=
  root ← get (subs_url showid season episode (alpha2 language) istvdbid);
  lift (read_subtitles language season episode tvdb_id series year root).

Section Query.

(** [self.find_show_id], as the caching decorator hands it out. *)
Variable resolver : string → option Z → M (option Z).

Definition query (language : Language) (season episode : option Z)
    (tvdb_id : option Z) (series : option string) (year : option Z)
  : M (list BierDopjeSubtitle) :=
  match tvdb_id with
  | Some id =>
      search language season episode tvdb_id series year id "true"
  | None =>
      match series with
      | Some name =>
          show_id ← resolver (lower name) year;
          match show_id with
          | None => mret []
          | Some id =>
              search language season episode tvdb_id series year id "false"
          end
      | None => raise (ValueError "Missing parameter tvdb_id or series")
      end
  end.

(** The comprehension of [list_subtitles]: every subtitle of every
    query is appended to the list under construction. *)
Fixpoint extend (acc : list BierDopjeSubtitle)
    (subs : list BierDopjeSubtitle) : list BierDopjeSubtitle :=
  match subs with
  | [] => acc
  | s :: subs' => extend (acc ++ [s]) subs'
  end.

Fixpoint collect (video : Video) (acc : list BierDopjeSubtitle)
    (languages : list Language) : M (list BierDopjeSubtitle) :=
  match languages with
  | [] => mret acc
  | l :: languages' =>
      subs ← query l (Video.season video) (Video.episode video)
               (Video.tvdb_id video) (Video.series video)
               (Video.year video);
      collect video (extend acc subs) languages'
  end.

Definition list_subtitles (video : Video) (languages : list Language)
  : M (list BierDopjeSubtitle) :=
  collect video [] languages.

End Query.

(** *** Download *)

Section Fetcher.

(** [charade.detect(content)['encoding']]: the name of an encoding, or
    [None] when the detector proposes nothing. *)
Variable detect : bytes → option string.

(** The codec registry, in ['replace'] mode: the decoder of a known
    encoding is total, an unknown name is a [LookupError]. *)
Variable decoder : string → option (bytes → string).

(** [is_valid_subtitle] of the subtitle module. *)
Variable is_valid_subtitle : string → bool.

(** [content.decode(encoding, 'replace')] *)
Definition decode (content : bytes) (encoding : option string)
  : Result string :=
  match encoding with
  | None => Raise TypeError
  | Some name =>
      match decoder name with
      | None => Raise LookupError
      | Some dec => Ok (dec content)
      end
  end.

(** The state of [download_subtitle] is the subtitle object it was
    given together with the world. *)
Definition self : State (BierDopjeSubtitle * World) BierDopjeSubtitle :=
  λ s, (Ok (fst s), s).

Definition assign_content (text : string)
  : State (BierDopjeSubtitle * World) unit :=
  λ s, (Ok tt, (BierDopjeSubtitle.set_content (fst s) text, snd s)).

Definition on_world {A : Type} (m : M A)
  : State (BierDopjeSubtitle * World) A :=
  λ s, let '(r, w) := m (snd s) in (r, (fst s, w)).

(** [session.get(link)]: a link that is [None] is refused before
    anything is sent.  Any other link is handed to the remote side, which
    answers it or lets it time out. *)
Definition session_get_link (link : option string) : M HttpOutcome :=
  match link with
  | Some url => session_get url
  | None => raise MissingSchema
  end.

Definition download_subtitle : State (BierDopjeSubtitle * World) unit :=
  subtitle ← self;
  r ← on_world
        (session_get_link (BierDopjeSubtitle.download_link subtitle));
  match r with
  | Timeout => raise (ProviderNotAvailable "Timeout after 10 seconds")
  | Response status_code content =>
      if status_code =? 429 then
        raise (ProviderNotAvailable "Too Many Requests")
      else if negb (status_code =? 200) then
        raise (ProviderError
                 (Some ("Request failed with status code "
                        +:+ Py.str_int status_code)))
      else
        subtitle_text ← lift (decode content (detect content));
        if negb (is_valid_subtitle subtitle_text) then
          raise InvalidSubtitle
        else assign_content subtitle_text
  end.

End Fetcher.

End Provider.

(** ** What the resolver is expected to select *)

(** A [result] entry of a show search exposing the display name [name]
    and the identifier [id]. *)
Definition show_entry (e : Element) (entry : string * Z) : Prop :=
  tag e = "result"
  ∧ (∃ n, ET.find [ET.Child "showname"] e = Some n ∧ text n = Some entry.1)
  ∧ (∃ i t, ET.find [ET.Child "showid"] e = Some i ∧ text i = Some t
            ∧ Py.int t = Some entry.2).

(** A show-search answer that reports results: its status flag is not
    ['false'] and its result list holds exactly the entries [entries]. *)
Definition show_search_response (root : Element)
    (entries : list (string * Z)) : Prop :=
  (∃ st, ET.find path_status root = Some st ∧ text st ≠ Some "false")
  ∧ (∃ res, ET.find path_results root = Some res
            ∧ Forall2 show_entry (children res) entries).

(** The identifier of the first entry whose display name, lowercased, is
    [wanted]. *)
Definition first_with_name (lower : string → string) (wanted : string)
    (entries : list (string * Z)) : option Z :=
  snd <$> List.find (λ entry, String.eqb (lower entry.1) wanted) entries.

(** The selection policy of the resolver, in the words of its contract:
    the year-qualified name first, then the bare name, then the first
    entry. *)
Definition resolve_spec (lower : string → string) (series : string)
    (year : option Z) (entries : list (string * Z)) : option Z :=
  let qualified :=
    match year with
    | Some y =>
        first_with_name lower (series +:+ " (" +:+ Py.str_int y +:+ ")")
          entries
    | None => None
    end in
  match qualified with
  | Some id => Some id
  | None =>
      match first_with_name lower series entries with
      | Some id => Some id
      | None => snd <$> head entries
      end
  end.

(** A subtitle that carries the arguments of the request that produced
    it and has no content yet. *)
Definition stamped (language : Language) (season episode tvdb_id : option Z)
    (series : option string) (year : option Z) (s : BierDopjeSubtitle)
  : Prop :=
  BierDopjeSubtitle.language s = language
  ∧ BierDopjeSubtitle.season s = season
  ∧ BierDopjeSubtitle.episode s = episode
  ∧ BierDopjeSubtitle.tvdb_id s = tvdb_id
  ∧ BierDopjeSubtitle.series s = series
  ∧ BierDopjeSubtitle.year s = year
  ∧ BierDopjeSubtitle.content s = None.

(** The filename and the download link of a subtitle are the texts of
    the two children of the entry [result]. *)
Definition read_from (result : Element) (s : BierDopjeSubtitle) : Prop :=
  ∃ fn dl,
    ET.find [ET.Child "filename"] result = Some fn
    ∧ ET.find [ET.Child "downloadlink"] result = Some dl
    ∧ BierDopjeSubtitle.filename s = text fn
    ∧ BierDopjeSubtitle.download_link s = text dl.

(** ** A scripted service, for running the provider *)

Module Mock.

Definition body (s : string) : bytes := list_byte_of_string s.

(** A parser given by a table from payloads to documents; a payload that
    is not in the table does not parse. *)
Definition fromstring (table : list (string * Element)) (content : bytes)
  : option Element :=
  snd <$> List.find (λ row, bool_decide (body row.1 = content)) table.

(** A service given by a table from URLs to outcomes; any other URL is
    answered with status 404. *)
Definition net (table : list (string * HttpOutcome))
    (history : list string) (url : string) : HttpOutcome :=
  match List.find (λ row, String.eqb row.1 url) table with
  | Some row => row.2
  | None => Response 404 []
  end.

Definition quote (s : string) : string := s.

Definition leaf (name value : string) : Element := Elem name (Some value) [].

Definition answer (status : string) (results : list Element) : Element :=
  Elem "bierdopje" None
    [Elem "response" None
       [leaf "status" status; Elem "results" None results]].

Definition show (name id : string) : Element :=
  Elem "result" None [leaf "showid" id; leaf "showname" name].

Definition sub (name link : string) : Element :=
  Elem "result" None [leaf "filename" name; leaf "downloadlink" link].

Definition shows_doc : Element :=
  answer "true" [show "lost (2004)" "1"; show "lost" "2"].

Definition subs_doc (lang : string) : Element :=
  answer "true"
    [sub ("Lost.S01E02.a." +:+ lang) ("http://dl/1/" +:+ lang);
     sub ("Lost.S01E02.b." +:+ lang) ("http://dl/2/" +:+ lang)].

Definition documents : list (string * Element) :=
  [("shows", shows_doc); ("subs-en", subs_doc "en");
   ("subs-nl", subs_doc "nl")].

Definition service : list (string * HttpOutcome) :=
  [(base_url +:+ "FindShowByName/lost", Response 200 (body "shows"));
   (base_url +:+ "GetAllSubsFor/2/1/2/en/false",
    Response 200 (body "subs-en"));
   (base_url +:+ "GetAllSubsFor/2/1/2/nl/false",
    Response 200 (body "subs-nl"));
   (base_url +:+ "GetAllSubsFor/75/1/2/en/true",
    Response 200 (body "subs-en"));
   ("http://dl/text", Response 200 (body "1 hello"));
   ("http://dl/junk", Response 200 (body "junk"));
   ("http://dl/empty", Response 200 []);
   ("http://dl/busy", Response 429 [])].

Definition start : World := {| requests := [] |}.

Definition lost : Video :=
  Video.mk None (Some "Lost") (Some 1) (Some 2) None.

(** A detector that proposes nothing for an empty payload, as the
    detector of the provider does when it has been fed no data, and
    ASCII otherwise. *)
Definition detect (content : bytes) : option string :=
  match content with
  | [] => None
  | _ => Some "ascii"
  end.

Definition decoder (name : string) : option (bytes → string) :=
  if String.eqb name "ascii" then Some string_of_list_byte else None.

Definition guess_episode_info (filename : string) : unit := tt.

(** A validator that accepts a text starting with a digit. *)
Definition is_valid_subtitle (text : string) : bool :=
  match text with
  | String c _ => bool_decide (is_Some (Py.digit c))
  | EmptyString => false
  end.

(** Two guess matchers: one that recognises nothing, one that reports
    the year. *)
Definition no_guess (video : Video) (guess : unit) : gset string := ∅.
Definition year_guess (video : Video) (guess : unit) : gset string :=
  {["year"]}.

Definition candidate (year : option Z) (filename : option string)
  : BierDopjeSubtitle :=
  BierDopjeSubtitle.init eng (Some 1) (Some 2) None (Some "Lost") year
    filename (Some "http://dl/text").

(** A candidate to be fetched from [link]. *)
Definition linked (link : string) : BierDopjeSubtitle :=
  BierDopjeSubtitle.init eng (Some 1) (Some 2) None (Some "Lost") None
    (Some "Lost.S01E02") (Some link).

(** The provider wired to the scripted service. *)
Definition find_show_id : string → option Z → M (option Z) :=
  find_show_id (net service) (fromstring documents) quote Py.lower.

Definition query : Language → option Z → option Z → option Z
                   → option string → option Z → M (list BierDopjeSubtitle) :=
  query (net service) (fromstring documents) Py.lower find_show_id.

Definition list_subtitles : Video → list Language
                            → M (list BierDopjeSubtitle) :=
  list_subtitles (net service) (fromstring documents) Py.lower find_show_id.

Definition download_subtitle : State (BierDopjeSubtitle * World) unit :=
  download_subtitle (net service) detect decoder is_valid_subtitle.

End Mock.

(** ** The memoised resolver *)

(** Modelled from the spec: the cache region behind the decorator
    [@region.cache_on_arguments] of [find_show_id] (the region is defined
    in [subliminal.cache], which is not part of the module).  An entry maps
    the arguments of a call, the series and the year, to what the call
    returned: an identifier or the not-found marker [None].  An entry is
    created by a resolution attempt that returned, never by one that
    raised, and while it lasts it is returned without running the method.
    The expiration time is not modelled: an expired entry is an absent
    one. *)
Abbreviation Cache := (gmap (string * option Z) (option Z)).


(** ** A service whose answer is not a document *)

Module Garbled.

(** The search is answered with status 200 and a body that is not
    well-formed: the element it opens is never closed. *)
Definition service : list (string * HttpOutcome) :=
  [(base_url +:+ "FindShowByName/lost", Response 200 (Mock.body "<html>"))].

Definition net : list string → string → HttpOutcome := Mock.net service.

End Garbled.

(** ** A second scripted service, for the edge cases *)

Module Script.

Definition subs_entries : list Element :=
  [Mock.sub "Lost.S01E02.a" "http://dl/a";
   Mock.sub "Lost.S01E02.b" "http://dl/b"].

(** The second entry has no [downloadlink] child. *)
Definition broken_entries : list Element :=
  [Mock.sub "Lost.S01E02.a" "http://dl/a";
   Elem "result" None [Mock.leaf "filename" "Lost.S01E02.b"]].

(** A document with the status flag ['false'] that lists an entry all
    the same. *)
Definition none_doc : Element :=
  Mock.answer "false" [Mock.show "lost" "2"].

Definition documents : list (string * Element) :=
  [("none", none_doc);
   ("swapped",
    Mock.answer "true" [Mock.show "Lost" "2"; Mock.show "Lost (2004)" "1"]);
   ("empty", Mock.answer "true" []);
   ("subs", Mock.answer "true" subs_entries);
   ("broken", Mock.answer "true" broken_entries)].

Definition service : list (string * HttpOutcome) :=
  [(base_url +:+ "FindShowByName/unknown", Response 200 (Mock.body "none"));
   (base_url +:+ "FindShowByName/lost", Response 200 (Mock.body "swapped"));
   (base_url +:+ "FindShowByName/Lost", Response 200 (Mock.body "swapped"));
   (base_url +:+ "FindShowByName/nothing", Response 200 (Mock.body "empty"));
   (base_url +:+ "FindShowByName/slow", Timeout);
   (base_url +:+ "GetAllSubsFor/1/1/2/en/false",
    Response 200 (Mock.body "subs"));
   (base_url +:+ "GetAllSubsFor/75/1/2/en/true",
    Response 200 (Mock.body "subs"));
   (base_url +:+ "GetAllSubsFor/75/1/2/nl/true", Response 429 []);
   (base_url +:+ "GetAllSubsFor/76/1/2/en/true",
    Response 200 (Mock.body "subs"));
   (base_url +:+ "GetAllSubsFor/76/1/2/nl/true",
    Response 200 (Mock.body "subs"));
   (base_url +:+ "GetAllSubsFor/77/1/2/en/true",
    Response 200 (Mock.body "broken"));
   (base_url +:+ "GetAllSubsFor/78/1/2/en/true",
    Response 200 (Mock.body "none"));
   ("http://dl/text", Response 200 (Mock.body "1 hello"));
   ("http://dl/junk", Response 200 (Mock.body "junk"));
   ("http://dl/odd", Response 200 (Mock.body "odd"))].

Definition net : list string → string → HttpOutcome := Mock.net service.

Definition fromstring : bytes → option Element := Mock.fromstring documents.

(** A detector that proposes an encoding without a codec for one
    payload. *)
Definition detect (content : bytes) : option string :=
  if bool_decide (content = Mock.body "odd") then Some "EUC-TW"
  else Mock.detect content.

Definition find_show_id : string → option Z → M (option Z) :=
  find_show_id net fromstring Mock.quote Py.lower.

Definition query : Language → option Z → option Z → option Z
                   → option string → option Z → M (list BierDopjeSubtitle) :=
  query net fromstring Py.lower find_show_id.

Definition list_subtitles : Video → list Language
                            → M (list BierDopjeSubtitle) :=
  list_subtitles net fromstring Py.lower find_show_id.

Definition download_subtitle : State (BierDopjeSubtitle * World) unit :=
  download_subtitle net detect Mock.decoder Mock.is_valid_subtitle.

(** A video known by its external identifier. *)
Definition known (id : Z) : Video :=
  Video.mk (Some id) (Some "Lost") (Some 1) (Some 2) (Some 2004).

End Script.

(** * Properties *)

(** ** Match scorer *)

Section ScorerFacts.

Import BierDopjeSubtitle.

Lemma truthy_int_true (o : option Z) :
  Py.truthy_int o = true ↔ ∃ z, o = Some z ∧ z ≠ 0.
Proof.
  destruct o as [z|]; simpl.
  - rewrite negb_true_iff, Z.eqb_neq. split.
    + intros Hz. exists z. done.
    + intros (z' & [= <-] & Hz). done.
  - split; [done | intros (z & Hz & _); done].
Qed.

Lemma truthy_str_true (o : option string) :
  Py.truthy_str o = true ↔ ∃ s, o = Some s ∧ s ≠ "".
Proof.
  destruct o as [s|]; simpl.
  - rewrite negb_true_iff, String.eqb_neq. split.
    + intros Hs. exists s. done.
    + intros (s' & [= <-] & Hs). done.
  - split; [done | intros (s & Hs & _); done].
Qed.

Lemma elem_of_add_if (b : bool) (m : gset string) (x t : string) :
  t ∈ (if b then m ∪ {[x]} else m) ↔ t ∈ m ∨ (b = true ∧ t = x).
Proof.
  destruct b.
  - rewrite elem_of_union, elem_of_singleton. intuition.
  - intuition discriminate.
Qed.

(** Which tags the comparisons of [compute_matches] have collected. *)
Lemma direct_matches_spec (C : BierDopjeSubtitle) (V : Video) (t : string) :
  t ∈ direct_matches C V ↔
    (t = "tvdb_id" ∧ Py.truthy_int (Video.tvdb_id V) = true
     ∧ tvdb_id C = Video.tvdb_id V)
    ∨ (t = "series" ∧ Py.truthy_str (Video.series V) = true
       ∧ series C = Video.series V)
    ∨ (t = "season" ∧ Py.truthy_int (Video.season V) = true
       ∧ season C = Video.season V)
    ∨ (t = "episode" ∧ Py.truthy_int (Video.episode V) = true
       ∧ episode C = Video.episode V)
    ∨ (t = "year" ∧ year C = Video.year V).
Proof.
  unfold direct_matches. cbv zeta.
  rewrite !elem_of_add_if, !andb_true_iff, !bool_decide_eq_true.
  rewrite elem_of_empty. tauto.
Qed.

End ScorerFacts.

Section ScorerClaims.

Import BierDopjeSubtitle.

Variable Guess : Type.
Variable guess_episode_info : string → Guess.
Variable compute_guess_matches : Video → Guess → gset string.

(** The result of [compute_matches] is the union of the direct tags and
    of the tags of the filename guess, for a subtitle with a filename. *)
Lemma compute_matches_union (C : BierDopjeSubtitle) (V : Video)
    (name : string) :
  filename C = Some name →
  compute_matches Guess guess_episode_info compute_guess_matches C V
  = Ok (direct_matches C V
        ∪ compute_guess_matches V (guess_episode_info (name +:+ ".mkv"))).
Proof. intros Hname. unfold compute_matches. by rewrite Hname. Qed.

(** C2 (as amended): for a candidate that carries a filename,
    [compute_matches] returns a set; that set contains the tag [year]
    whenever the year of the candidate equals the year of the video, with
    no presence test (two absent years are equal); and it contains the tag
    exactly when the years are equal or the filename guess contributes
    it. *)
Theorem compute_matches_year (C : BierDopjeSubtitle) (V : Video)
    (name : string) :
  filename C = Some name →
  ∃ m,
    compute_matches Guess guess_episode_info compute_guess_matches C V = Ok m
    ∧ (year C = Video.year V → "year" ∈ m)
    ∧ ("year" ∈ m ↔
         year C = Video.year V
         ∨ "year" ∈ compute_guess_matches V
                      (guess_episode_info (name +:+ ".mkv"))).
Proof.
  intros Hname. eexists. split; [by apply compute_matches_union |].
  rewrite elem_of_union, direct_matches_spec. split.
  - intros Hyear. left. repeat right. done.
  - split.
    + intros [Hdirect | Hguess]; [| by right].
      destruct Hdirect as [(? & _)|[(? & _)|[(? & _)|[(? & _)|(_ & ?)]]]];
        try discriminate. by left.
    + intros [Hyear | Hguess]; [| by right]. left. repeat right. done.
Qed.

(** C10: in [compute_matches], the comparisons add [tvdb_id], [series],
    [season] and [episode] only when the field of the video is present
    and true as a condition, and equal to the field of the candidate; a
    video field that is [None] (or a season or episode that is 0) gives no
    tag even when the candidate has the same value; [year] is added on
    equality alone.  The set of these tags is what [compute_matches]
    merges with the tags of the filename guess. *)
Theorem direct_matches_guarded (C : BierDopjeSubtitle) (V : Video) :
  ("tvdb_id" ∈ direct_matches C V ↔
     Py.truthy_int (Video.tvdb_id V) = true ∧ tvdb_id C = Video.tvdb_id V)
  ∧ ("series" ∈ direct_matches C V ↔
       Py.truthy_str (Video.series V) = true ∧ series C = Video.series V)
  ∧ ("season" ∈ direct_matches C V ↔
       Py.truthy_int (Video.season V) = true ∧ season C = Video.season V)
  ∧ ("episode" ∈ direct_matches C V ↔
       Py.truthy_int (Video.episode V) = true
       ∧ episode C = Video.episode V)
  ∧ ("year" ∈ direct_matches C V ↔ year C = Video.year V)
  ∧ (Video.tvdb_id V = None → "tvdb_id" ∉ direct_matches C V)
  ∧ (Video.series V = None → "series" ∉ direct_matches C V)
  ∧ (Video.season V = None ∨ Video.season V = Some 0 →
     "season" ∉ direct_matches C V)
  ∧ (Video.episode V = None ∨ Video.episode V = Some 0 →
     "episode" ∉ direct_matches C V)
  ∧ (∀ name, filename C = Some name →
       compute_matches Guess guess_episode_info compute_guess_matches C V
       = Ok (direct_matches C V
             ∪ compute_guess_matches V
                 (guess_episode_info (name +:+ ".mkv")))).
Proof.
  assert (Htvdb : "tvdb_id" ∈ direct_matches C V ↔
     Py.truthy_int (Video.tvdb_id V) = true ∧ tvdb_id C = Video.tvdb_id V).
  { rewrite direct_matches_spec. split; [| by left].
    intros [(_ & ?)|[(? & _)|[(? & _)|[(? & _)|(? & _)]]]];
      done || discriminate. }
  assert (Hseries : "series" ∈ direct_matches C V ↔
     Py.truthy_str (Video.series V) = true ∧ series C = Video.series V).
  { rewrite direct_matches_spec. split; [| by right; left].
    intros [(? & _)|[(_ & ?)|[(? & _)|[(? & _)|(? & _)]]]];
      done || discriminate. }
  assert (Hseason : "season" ∈ direct_matches C V ↔
     Py.truthy_int (Video.season V) = true ∧ season C = Video.season V).
  { rewrite direct_matches_spec. split; [| by right; right; left].
    intros [(? & _)|[(? & _)|[(_ & ?)|[(? & _)|(? & _)]]]];
      done || discriminate. }
  assert (Hepisode : "episode" ∈ direct_matches C V ↔
     Py.truthy_int (Video.episode V) = true
     ∧ episode C = Video.episode V).
  { rewrite direct_matches_spec. split; [| by right; right; right; left].
    intros [(? & _)|[(? & _)|[(? & _)|[(_ & ?)|(? & _)]]]];
      done || discriminate. }
  assert (Hyear : "year" ∈ direct_matches C V ↔ year C = Video.year V).
  { rewrite direct_matches_spec. split; [| by repeat right].
    intros [(? & _)|[(? & _)|[(? & _)|[(? & _)|(_ & ?)]]]];
      done || discriminate. }
  split; [exact Htvdb |]. split; [exact Hseries |].
  split; [exact Hseason |]. split; [exact Hepisode |].
  split; [exact Hyear |].
  split; [| split; [| split; [| split]]].
  - intros Hnone. rewrite Htvdb, Hnone. intros [? _]. done.
  - intros Hnone. rewrite Hseries, Hnone. intros [? _]. done.
  - intros [Hnone | Hzero]; rewrite Hseason; [rewrite Hnone | rewrite Hzero];
      intros [? _]; done.
  - intros [Hnone | Hzero]; rewrite Hepisode;
      [rewrite Hnone | rewrite Hzero]; intros [? _]; done.
  - intros name Hname. by apply compute_matches_union.
Qed.

End ScorerClaims.

(** The candidate and the video of this run have no year, and the guess
    contributes nothing: the tag is there. *)
Lemma compute_matches_year_witness :
  ∃ m,
    BierDopjeSubtitle.compute_matches unit Mock.guess_episode_info
      Mock.no_guess (Mock.candidate None (Some "Lost.S01E02")) Mock.lost
    = Ok m
    ∧ (None = Video.year Mock.lost → "year" ∈ m)
    ∧ ("year" ∈ m ↔
         None = Video.year Mock.lost
         ∨ "year" ∈ Mock.no_guess Mock.lost
                      (Mock.guess_episode_info ("Lost.S01E02" +:+ ".mkv"))).
Proof.
  apply (compute_matches_year unit Mock.guess_episode_info Mock.no_guess
           (Mock.candidate None (Some "Lost.S01E02")) Mock.lost
           "Lost.S01E02").
  reflexivity.
Defined.

(** C2 as stated fails in two ways.  With a guess matcher that reports
    the year, the tag is in the result although the candidate is of 2004
    and the video has no year; and for a candidate without a filename the
    call raises, so that nothing is returned although both years are
    absent. *)
Lemma compute_matches_year_counterexample :
  (∃ m,
     BierDopjeSubtitle.compute_matches unit Mock.guess_episode_info
       Mock.year_guess (Mock.candidate (Some 2004) (Some "Lost.S01E02"))
       Mock.lost
     = Ok m
     ∧ "year" ∈ m
     ∧ BierDopjeSubtitle.year
         (Mock.candidate (Some 2004) (Some "Lost.S01E02"))
       ≠ Video.year Mock.lost)
  ∧ (BierDopjeSubtitle.compute_matches unit Mock.guess_episode_info
       Mock.no_guess (Mock.candidate None None) Mock.lost
     = Raise TypeError
     ∧ BierDopjeSubtitle.year (Mock.candidate None None)
       = Video.year Mock.lost).
Proof.
  split.
  - eexists. split; [reflexivity |]. split; [| discriminate].
    apply elem_of_union. right. by apply elem_of_singleton.
  - split; reflexivity.
Qed.

(** ** Running a computation *)

Lemma bind_run {S A B : Type} (m : State S A) (f : A → State S B) (s : S) :
  (m ≫= f) s
  = match m s with
    | (Ok a, s') => f a s'
    | (Raise e, s') => (Raise e, s')
    end.
Proof. reflexivity. Qed.

Lemma result_bind_ok {A B : Type} (a : A) (f : A → Result B) :
  Ok a ≫= f = f a.
Proof. reflexivity. Qed.

Lemma mapM_cons {S A B : Type} (f : A → State S B) (x : A) (l : list A) :
  mapM f (x :: l) = (y ← f x; k ← mapM f l; mret (y :: k)).
Proof. reflexivity. Qed.

(** ** Transport *)

Section TransportFacts.

Variable net : list string → string → HttpOutcome.
Variable fromstring : bytes → option Element.

(** One run of [get]: one request is recorded, and the result is read off
    the outcome of that request. *)
Lemma get_run (url : string) (w : World) :
  get net fromstring url w
  = (match net (requests w) (base_url +:+ url) with
     | Timeout => Raise (ProviderNotAvailable "Timeout after 10 seconds")
     | Response status_code content =>
         if status_code =? 429 then
           Raise (ProviderNotAvailable "Too Many Requests")
         else if negb (status_code =? 200) then
           Raise (ProviderError
                    (Some ("Request failed with status code "
                           +:+ Py.str_int status_code)))
         else
           match fromstring content with
           | None => Raise ParseError
           | Some root =>
               match ET.find path_error_msg root with
               | Some e => Raise (ProviderError (text e))
               | None => Ok root
               end
           end
     end, sent w (base_url +:+ url)).
Proof.
  unfold get, mbind, State_bind, session_get.
  destruct (net (requests w) (base_url +:+ url)) as [|st c]; [done |].
  destruct (st =? 429); [done |].
  destruct (negb (st =? 200)); [done |].
  destruct (fromstring c) as [root|]; [| done].
  by destruct (ET.find path_error_msg root).
Qed.

Lemma get_requests (url : string) (w : World) :
  (get net fromstring url w).2 = sent w (base_url +:+ url).
Proof. by rewrite get_run. Qed.

Section DownloadFacts.

Variable detect : bytes → option string.
Variable decoder : string → option (bytes → string).
Variable is_valid_subtitle : string → bool.

(** Decoding fails only for want of an encoding or of a codec. *)
Lemma decode_raises (content : bytes) (encoding : option string) (e : exn) :
  decode decoder content encoding = Raise e →
  e = TypeError ∨ e = LookupError.
Proof.
  unfold decode. destruct encoding as [name|]; [| intros [= <-]; by left].
  destruct (decoder name); [done | intros [= <-]; by right].
Qed.

(** One run of [download_subtitle] on a subtitle without a link: nothing
    is sent. *)
Lemma download_subtitle_no_link (sub : BierDopjeSubtitle) (w : World) :
  BierDopjeSubtitle.download_link sub = None →
  download_subtitle net detect decoder is_valid_subtitle (sub, w)
  = (Raise MissingSchema, (sub, w)).
Proof.
  intros Hlink.
  unfold download_subtitle, mbind, State_bind, self, on_world,
    session_get_link.
  simpl. by rewrite Hlink.
Qed.

(** One run of [download_subtitle] on a subtitle with a link. *)
Lemma download_subtitle_run (sub : BierDopjeSubtitle) (w : World)
    (url : string) :
  BierDopjeSubtitle.download_link sub = Some url →
  download_subtitle net detect decoder is_valid_subtitle (sub, w)
  = match net (requests w) url with
    | Timeout =>
        (Raise (ProviderNotAvailable "Timeout after 10 seconds"),
         (sub, sent w url))
    | Response status_code content =>
        if status_code =? 429 then
          (Raise (ProviderNotAvailable "Too Many Requests"),
           (sub, sent w url))
        else if negb (status_code =? 200) then
          (Raise (ProviderError
                    (Some ("Request failed with status code "
                           +:+ Py.str_int status_code))),
           (sub, sent w url))
        else
          match decode decoder content (detect content) with
          | Raise e => (Raise e, (sub, sent w url))
          | Ok subtitle_text =>
              if is_valid_subtitle subtitle_text then
                (Ok tt,
                 (BierDopjeSubtitle.set_content sub subtitle_text,
                  sent w url))
              else (Raise InvalidSubtitle, (sub, sent w url))
          end
    end.
Proof.
  intros Hlink.
  unfold download_subtitle, mbind, State_bind, self, on_world,
    session_get_link, session_get, lift, assign_content.
  simpl. rewrite Hlink.
  destruct (net (requests w) url) as [|st c]; [done |].
  destruct (st =? 429); [done |].
  destruct (negb (st =? 200)); [done |].
  destruct (decode decoder c (detect c)) as [t|e]; [| done].
  by destruct (is_valid_subtitle t).
Qed.

End DownloadFacts.

End TransportFacts.

Section TransportClaims.

Variable net : list string → string → HttpOutcome.
Variable fromstring : bytes → option Element.
Variable detect : bytes → option string.
Variable decoder : string → option (bytes → string).
Variable is_valid_subtitle : string → bool.

Ltac status_cases st :=
  destruct (Z.eqb_spec st 429) as [-> | ?];
  [| destruct (Z.eqb_spec st 200) as [-> | ?]]; simpl.

(** C3 (as amended): [get] raises [ProviderNotAvailable] exactly when the
    request times out or is answered with status 429; it raises
    [ProviderError] exactly when the status is neither 200 nor 429 (the
    message carries the status) or the status is 200, the body parses and
    the parsed document has an error-message node (the message is the text
    of that node); it returns exactly when the status is 200 and the body
    parses to a document without such a node, and then returns that
    document; a body with status 200 that does not parse raises the
    [ParseError] of the parser, which is neither class.
    [download_subtitle] sorts a timeout, a 429 and any other status but 200
    the same way.  A 429 is never a [ProviderError]. *)
Theorem get_classification (url : string) (w : World)
    (sub : BierDopjeSubtitle) :
  let out := net (requests w) (base_url +:+ url) in
  let got := (get net fromstring url w).1 in
  let fetched :=
    (download_subtitle net detect decoder is_valid_subtitle (sub, w)).1 in
  let link := BierDopjeSubtitle.download_link sub in
  (∀ msg, got = Raise (ProviderNotAvailable msg) ↔
     (out = Timeout ∧ msg = "Timeout after 10 seconds")
     ∨ (∃ c, out = Response 429 c ∧ msg = "Too Many Requests"))
  ∧ (∀ msg, got = Raise (ProviderError msg) ↔
       (∃ st c, out = Response st c ∧ st ≠ 200 ∧ st ≠ 429
                ∧ msg = Some ("Request failed with status code "
                              +:+ Py.str_int st))
       ∨ (∃ c root e, out = Response 200 c ∧ fromstring c = Some root
                      ∧ ET.find path_error_msg root = Some e
                      ∧ msg = text e))
  ∧ (∀ root, got = Ok root ↔
       ∃ c, out = Response 200 c ∧ fromstring c = Some root
            ∧ ET.find path_error_msg root = None)
  ∧ (got = Raise ParseError ↔
       ∃ c, out = Response 200 c ∧ fromstring c = None)
  ∧ (∀ msg, fetched = Raise (ProviderNotAvailable msg) ↔
       ∃ u, link = Some u
            ∧ ((net (requests w) u = Timeout
                ∧ msg = "Timeout after 10 seconds")
               ∨ (∃ c, net (requests w) u = Response 429 c
                       ∧ msg = "Too Many Requests")))
  ∧ (∀ msg, fetched = Raise (ProviderError msg) ↔
       ∃ u st c, link = Some u ∧ net (requests w) u = Response st c
                 ∧ st ≠ 200 ∧ st ≠ 429
                 ∧ msg = Some ("Request failed with status code "
                               +:+ Py.str_int st)).
Proof.
  cbv zeta. rewrite get_run. simpl. repeat split.
  - destruct (net _ _) as [|st c].
    + intros [= <-]. by left.
    + status_cases st.
      * intros [= <-]. right. by exists c.
      * destruct (fromstring c) as [root|]; [| done].
        by destruct (ET.find path_error_msg root).
      * done.
  - intros [[-> ->] | (c & -> & ->)]; done.
  - destruct (net _ _) as [|st c]; [done |].
    status_cases st.
    + done.
    + destruct (fromstring c) as [root|] eqn:Hroot; [| done].
      destruct (ET.find path_error_msg root) as [e|] eqn:He; [| done].
      intros [= <-]. right. by exists c, root, e.
    + intros [= <-]. left. by exists st, c.
  - intros [(st & c & -> & H200 & H429 & ->) | (c & root & e & -> & Hroot & He & ->)].
    + destruct (Z.eqb_spec st 429); [done |].
      by destruct (Z.eqb_spec st 200).
    + simpl. by rewrite Hroot, He.
  - destruct (net _ _) as [|st c]; [done |].
    status_cases st; try done.
    destruct (fromstring c) as [root'|] eqn:Hroot; [| done].
    destruct (ET.find path_error_msg root') as [e|] eqn:He; [done |].
    intros [= <-]. by exists c.
  - intros (c & -> & Hroot & He). simpl. by rewrite Hroot, He.
  - destruct (net _ _) as [|st c]; [done |].
    status_cases st; try done.
    destruct (fromstring c) as [root|] eqn:Hroot; [| by exists c].
    by destruct (ET.find path_error_msg root).
  - intros (c & -> & Hroot). simpl. by rewrite Hroot.
  - destruct (BierDopjeSubtitle.download_link sub) as [u|] eqn:Hlink;
      [| by rewrite download_subtitle_no_link].
    rewrite (download_subtitle_run _ _ _ _ _ _ u Hlink).
    intros Hrun. exists u. split; [done |].
    destruct (net (requests w) u) as [|st c].
    + injection Hrun as <-. by left.
    + revert Hrun. status_cases st.
      * intros [= <-]. right. by exists c.
      * destruct (decode decoder c (detect c)) as [t|e] eqn:Hdec.
        -- by destruct (is_valid_subtitle t).
        -- by destruct (decode_raises _ _ _ _ Hdec) as [-> | ->].
      * done.
  - intros (u & Hlink & Hout).
    rewrite (download_subtitle_run _ _ _ _ _ _ u Hlink).
    destruct Hout as [[-> ->] | (c & -> & ->)]; done.
  - destruct (BierDopjeSubtitle.download_link sub) as [u|] eqn:Hlink;
      [| by rewrite download_subtitle_no_link].
    rewrite (download_subtitle_run _ _ _ _ _ _ u Hlink).
    intros Hrun. exists u.
    destruct (net (requests w) u) as [|st c]; [done |].
    exists st, c. revert Hrun. status_cases st.
    + done.
    + destruct (decode decoder c (detect c)) as [t|e] eqn:Hdec.
      * by destruct (is_valid_subtitle t).
      * by destruct (decode_raises _ _ _ _ Hdec) as [-> | ->].
    + by intros [= <-].
  - intros (u & st & c & Hlink & Hout & H200 & H429 & ->).
    rewrite (download_subtitle_run _ _ _ _ _ _ u Hlink), Hout.
    destruct (Z.eqb_spec st 429); [done |].
    by destruct (Z.eqb_spec st 200).
Qed.

End TransportClaims.

(** C3 as stated fails on an answer with status 200 whose body does not
    parse: the request has not timed out, the status is 200, there is no
    parsed document and hence no error node in one, and [get] does not
    return: the error of the parser is raised. *)
Lemma get_classification_counterexample :
  Garbled.net (requests Mock.start) (base_url +:+ "FindShowByName/lost")
  = Response 200 (Mock.body "<html>")
  ∧ Mock.fromstring Mock.documents (Mock.body "<html>") = None
  ∧ get Garbled.net (Mock.fromstring Mock.documents) "FindShowByName/lost"
      Mock.start
    = (Raise ParseError,
       sent Mock.start (base_url +:+ "FindShowByName/lost")).
Proof. repeat split. Qed.

(** ** Subtitle query *)

Section QueryFacts.

Variable net : list string → string → HttpOutcome.
Variable fromstring : bytes → option Element.
Variable lower : string → string.

(** The list comprehension of [query] stamps every subtitle with the
    arguments and reads two texts from the entry. *)
Lemma parse_subtitles_spec (language : Language)
    (season episode tvdb_id : option Z) (series : option string)
    (year : option Z) (results : list Element)
    (subs : list BierDopjeSubtitle) :
  parse_subtitles language season episode tvdb_id series year results
  = Ok subs →
  Forall (stamped language season episode tvdb_id series year) subs
  ∧ Forall2 read_from results subs.
Proof.
  revert subs. induction results as [|result results IH]; intros subs.
  - intros [= <-]. split; constructor.
  - unfold parse_subtitles. simpl. fold (parse_subtitles language season
      episode tvdb_id series year results).
    destruct (ET.find [ET.Child "filename"] result) as [fn|] eqn:Hfn;
      [| done]. simpl.
    destruct (ET.find [ET.Child "downloadlink"] result) as [dl|] eqn:Hdl;
      [| done]. simpl.
    destruct (parse_subtitles language season episode tvdb_id series year
                results) as [rest|e]; [| done]. simpl.
    intros [= <-]. destruct (IH rest eq_refl) as [Hstamped Hread].
    split; constructor; try done.
    by exists fn, dl.
Qed.

Lemma read_subtitles_spec (language : Language)
    (season episode tvdb_id : option Z) (series : option string)
    (year : option Z) (root : Element) (subs : list BierDopjeSubtitle) :
  read_subtitles language season episode tvdb_id series year root = Ok subs →
  Forall (stamped language season episode tvdb_id series year) subs
  ∧ (subs = []
     ∨ ∃ res, ET.find path_results root = Some res
              ∧ Forall2 read_from (children res) subs).
Proof.
  unfold read_subtitles.
  destruct (ET.find path_status root) as [st|]; [| done]. simpl.
  case_bool_decide.
  - intros [= <-]. split; [constructor | by left].
  - destruct (ET.find path_results root) as [res|]; [| done]. simpl.
    intros Hparse. apply parse_subtitles_spec in Hparse as [Hstamped Hread].
    split; [done |]. right. by exists res.
Qed.

(** [get] followed by a reading of the document, run on a world. *)
Lemma get_then_read {A : Type} (url : string) (f : Element → Result A)
    (w : World) (a : A) (w' : World) :
  (root ← get net fromstring url; lift (f root)) w = (Ok a, w') →
  w' = sent w (base_url +:+ url)
  ∧ ∃ c root, net (requests w) (base_url +:+ url) = Response 200 c
              ∧ fromstring c = Some root ∧ f root = Ok a.
Proof.
  unfold mbind, State_bind. rewrite get_run.
  destruct (net _ _) as [|st c]; [done |].
  destruct (Z.eqb_spec st 429); [done |].
  destruct (Z.eqb_spec st 200) as [-> |]; [| done]. simpl.
  destruct (fromstring c) as [root|] eqn:Hroot; [| done].
  destruct (ET.find path_error_msg root); [done |].
  unfold lift. intros [= Hf <-]. split; [done |]. by exists c, root.
Qed.

Lemma get_then_read_requests {A : Type} (url : string)
    (f : Element → Result A) (w : World) :
  ((root ← get net fromstring url; lift (f root)) w).2
  = sent w (base_url +:+ url).
Proof.
  unfold mbind, State_bind.
  pose proof (get_requests net fromstring url w) as Hsent.
  destruct (get net fromstring url w) as [[root|e] w1]; simpl in *; done.
Qed.

Lemma extend_app (acc subs : list BierDopjeSubtitle) :
  extend acc subs = (acc ++ subs)%list.
Proof.
  revert acc. induction subs as [|s subs IH]; intros acc; simpl.
  - by rewrite app_nil_r.
  - by rewrite IH, <- app_assoc.
Qed.

End QueryFacts.

Section QueryClaims.

Variable net : list string → string → HttpOutcome.
Variable fromstring : bytes → option Element.
Variable lower : string → string.

(** C4: with neither [tvdb_id] nor [series], [query] raises [ValueError]
    at once, whatever the other arguments and the resolver: the world is
    the one it started from, so that no request has been issued. *)
Theorem query_missing_parameter
    (resolver : string → option Z → M (option Z)) (language : Language)
    (season episode year : option Z) (w : World) :
  query net fromstring lower resolver language season episode None None year w
  = (Raise (ValueError "Missing parameter tvdb_id or series"), w)
  ∧ requests
      (query net fromstring lower resolver language season episode None None year
         w).2
    = requests w.
Proof.
  assert (Hrun :
    query net fromstring lower resolver language season episode None None year w
    = (Raise (ValueError "Missing parameter tvdb_id or series"), w)).
  { reflexivity. }
  split; [exact Hrun | by rewrite Hrun].
Qed.

(** C5: with a [tvdb_id], [query] does not depend on the resolver: two
    resolvers of any behaviour give the same result and the same world;
    the run is the single request for the subtitles of the show [tvdb_id]
    with the flag ['true'], followed by the reading of its answer. *)
Theorem query_tvdb_id_skips_resolver
    (resolver resolver' : string → option Z → M (option Z))
    (language : Language) (season episode : option Z) (id : Z)
    (series : option string) (year : option Z) (w : World) :
  let url := subs_url id season episode (alpha2 language) "true" in
  query net fromstring lower resolver language season episode (Some id) series
    year w
  = query net fromstring lower resolver' language season episode (Some id) series
      year w
  ∧ query net fromstring lower resolver language season episode (Some id) series
      year w
    = (root ← get net fromstring url;
       lift (read_subtitles language season episode (Some id) series year
               root)) w
  ∧ (query net fromstring lower resolver language season episode (Some id) series
       year w).2
    = sent w (base_url +:+ url).
Proof.
  cbv zeta. split; [reflexivity |]. split; [reflexivity |].
  unfold query, search. apply (get_then_read_requests net fromstring).
Qed.

(** C6: every subtitle that [query] returns carries the language, season,
    episode, [tvdb_id], series and year of the call and has no content;
    when there are subtitles, they are, in order, the entries of the result
    list of the document that answered the last request of the run, each
    read for its filename and its download link only. *)
Theorem query_stamps_request
    (resolver : string → option Z → M (option Z)) (language : Language)
    (season episode tvdb_id : option Z) (series : option string)
    (year : option Z) (w w' : World) (subs : list BierDopjeSubtitle) :
  query net fromstring lower resolver language season episode tvdb_id series year w
  = (Ok subs, w') →
  Forall (stamped language season episode tvdb_id series year) subs
  ∧ (subs = []
     ∨ ∃ w1 url c root res,
         w' = sent w1 url
         ∧ net (requests w1) url = Response 200 c
         ∧ fromstring c = Some root
         ∧ ET.find path_results root = Some res
         ∧ Forall2 read_from (children res) subs).
Proof.
  assert (Hsearch : ∀ showid flag w1,
    search net fromstring language season episode tvdb_id series year showid
      flag w1 = (Ok subs, w') →
    Forall (stamped language season episode tvdb_id series year) subs
    ∧ (subs = []
       ∨ ∃ w1 url c root res,
           w' = sent w1 url
           ∧ net (requests w1) url = Response 200 c
           ∧ fromstring c = Some root
           ∧ ET.find path_results root = Some res
           ∧ Forall2 read_from (children res) subs)).
  { intros showid flag w1 Hrun. unfold search in Hrun.
    apply get_then_read in Hrun as (-> & c & root & Hout & Hroot & Hread).
    apply read_subtitles_spec in Hread
      as [Hstamped [-> | (res & Hres & Hfrom)]].
    - split; [done | by left].
    - split; [done |]. right.
      by exists w1, (base_url
               +:+ subs_url showid season episode (alpha2 language) flag),
        c, root, res. }
  unfold query. destruct tvdb_id as [id|]; [apply Hsearch |].
  destruct series as [name|]; [| done].
  rewrite bind_run.
  destruct (resolver (lower name) year w) as [[[id|]|e] w1].
  - apply Hsearch.
  - intros [= <- <-]. split; [constructor | by left].
  - done.
Qed.

(** C8: [list_subtitles] runs one [query] per language, in the order of
    the languages, each on the world the previous one left, and returns
    the concatenation of their results in that order; an exception of a
    query ends the run.  For two languages whose queries succeed the
    result is the list of the first followed by the list of the second. *)
Theorem list_subtitles_concat
    (resolver : string → option Z → M (option Z)) (video : Video)
    (languages : list Language) (w : World) :
  let ask := λ l : Language,
    query net fromstring lower resolver l (Video.season video)
      (Video.episode video) (Video.tvdb_id video) (Video.series video)
      (Video.year video) in
  list_subtitles net fromstring lower resolver video languages w
  = (found ← mapM (M := State World) ask languages; mret (concat found)) w
  ∧ ∀ l1 l2 subs1 w1 subs2 w2,
      languages = [l1; l2] →
      ask l1 w = (Ok subs1, w1) →
      ask l2 w1 = (Ok subs2, w2) →
      list_subtitles net fromstring lower resolver video languages w
      = (Ok (subs1 ++ subs2)%list, w2).
Proof.
  cbv zeta.
  assert (Hcollect : ∀ languages acc w,
    collect net fromstring lower resolver video acc languages w
    = (found ← mapM (M := State World)
         (λ l : Language,
            query net fromstring lower resolver l (Video.season video)
              (Video.episode video) (Video.tvdb_id video)
              (Video.series video) (Video.year video)) languages;
       mret (acc ++ concat found)%list) w).
  { clear. intros languages.
    induction languages as [|l languages IH]; intros acc w.
    - rewrite bind_run. simpl. unfold mret, State_ret.
      by rewrite app_nil_r.
    - rewrite bind_run, mapM_cons, bind_run. simpl collect.
      rewrite bind_run.
      destruct (query _ _ _ _ l _ _ _ _ _ w) as [[subs|e] w1]; [| done].
      rewrite IH, extend_app, !bind_run.
      destruct (mapM (M := State World) _ languages w1)
        as [[found|e] w2]; [| done].
      unfold mret, State_ret. simpl. by rewrite app_assoc. }
  split.
  - unfold list_subtitles. by rewrite Hcollect.
  - intros l1 l2 subs1 w1 subs2 w2 -> Hfirst Hsecond.
    unfold list_subtitles.
    rewrite Hcollect, bind_run, mapM_cons, bind_run, Hfirst, bind_run.
    rewrite mapM_cons, bind_run, Hsecond, bind_run.
    simpl. unfold mret, State_ret. by rewrite app_nil_r.
Qed.

End QueryClaims.

(** With the scripted service, the query for [Lost] in English resolves
    the show by name and returns two stamped subtitles. *)
Lemma query_stamps_request_witness :
  ∃ subs w',
    Mock.query eng (Some 1) (Some 2) None (Some "Lost") None Mock.start
    = (Ok subs, w')
    ∧ length subs = 2%nat
    ∧ Forall (stamped eng (Some 1) (Some 2) None (Some "Lost") None) subs
    ∧ (subs = []
       ∨ ∃ w1 url c root res,
           w' = sent w1 url
           ∧ Mock.net Mock.service (requests w1) url = Response 200 c
           ∧ Mock.fromstring Mock.documents c = Some root
           ∧ ET.find path_results root = Some res
           ∧ Forall2 read_from (children res) subs).
Proof.
  eexists _, _. split; [vm_compute; reflexivity |].
  split; [reflexivity |].
  apply (query_stamps_request (Mock.net Mock.service)
           (Mock.fromstring Mock.documents) Py.lower Mock.find_show_id eng
           (Some 1)
           (Some 2) None (Some "Lost") None Mock.start).
  vm_compute. reflexivity.
Defined.

(** ** Download *)

Section FetcherClaims.

Variable net : list string → string → HttpOutcome.
Variable detect : bytes → option string.
Variable decoder : string → option (bytes → string).
Variable is_valid_subtitle : string → bool.

(** A proposed encoding with a codec is always decoded. *)
Lemma decode_known (content : bytes) (name : string) (dec : bytes → string) :
  decoder name = Some dec →
  decode decoder content (Some name) = Ok (dec content).
Proof. intros Hdec. unfold decode. by rewrite Hdec. Qed.

(** Whatever the run, the subtitle changes only by the assignment of a
    text that the validator accepted, at the end of a run that returns. *)
Lemma download_subtitle_assigns_last (sub sub' : BierDopjeSubtitle)
    (w w' : World) (r : Result unit) :
  download_subtitle net detect decoder is_valid_subtitle (sub, w)
  = (r, (sub', w')) →
  (sub' = sub ∧ ∃ e, r = Raise e)
  ∨ (r = Ok tt
     ∧ ∃ text, is_valid_subtitle text = true
               ∧ sub' = BierDopjeSubtitle.set_content sub text).
Proof.
  destruct (BierDopjeSubtitle.download_link sub) as [url|] eqn:Hlink.
  - rewrite (download_subtitle_run _ _ _ _ _ _ url Hlink).
    destruct (net (requests w) url) as [|st c].
    { intros [= <- <- <-]. left. eauto. }
    destruct (st =? 429). { intros [= <- <- <-]. left. eauto. }
    destruct (negb (st =? 200)). { intros [= <- <- <-]. left. eauto. }
    destruct (decode decoder c (detect c)) as [text|e].
    + destruct (is_valid_subtitle text) eqn:Hvalid.
      * intros [= <- <- <-]. right. eauto.
      * intros [= <- <- <-]. left. eauto.
    + intros [= <- <- <-]. left. eauto.
  - rewrite download_subtitle_no_link by done.
    intros [= <- <- <-]. left. eauto.
Qed.

(** C7: when the validator rejects the decoded payload,
    [download_subtitle] raises [InvalidSubtitle] and the subtitle is the
    one it was given: its content is what it was, unset if it was unset. *)
Theorem download_subtitle_invalid (sub : BierDopjeSubtitle) (w : World)
    (url : string) (c : bytes) (text : string) :
  BierDopjeSubtitle.download_link sub = Some url →
  net (requests w) url = Response 200 c →
  decode decoder c (detect c) = Ok text →
  is_valid_subtitle text = false →
  download_subtitle net detect decoder is_valid_subtitle (sub, w)
  = (Raise InvalidSubtitle, (sub, sent w url))
  ∧ (BierDopjeSubtitle.content sub = None →
     BierDopjeSubtitle.content
       (download_subtitle net detect decoder is_valid_subtitle (sub, w)).2.1
     = None).
Proof.
  intros Hlink Hout Hdec Hvalid.
  rewrite (download_subtitle_run _ _ _ _ _ _ url Hlink), Hout. simpl.
  by rewrite Hdec, Hvalid.
Qed.

(** C9 fails on the code: a payload for which the detector proposes no
    encoding is not decoded; [decode] is called with [None] and the run
    ends in a [TypeError]. *)
Theorem download_subtitle_no_encoding (sub : BierDopjeSubtitle) (w : World)
    (url : string) (c : bytes) :
  BierDopjeSubtitle.download_link sub = Some url →
  net (requests w) url = Response 200 c →
  detect c = None →
  download_subtitle net detect decoder is_valid_subtitle (sub, w)
  = (Raise TypeError, (sub, sent w url)).
Proof.
  intros Hlink Hout Hdetect.
  rewrite (download_subtitle_run _ _ _ _ _ _ url Hlink), Hout. simpl.
  by rewrite Hdetect.
Qed.

End FetcherClaims.

(** The scripted validator rejects the payload of [http://dl/junk]. *)
Lemma download_subtitle_invalid_witness :
  Mock.download_subtitle (Mock.linked "http://dl/junk", Mock.start)
  = (Raise InvalidSubtitle,
     (Mock.linked "http://dl/junk", sent Mock.start "http://dl/junk"))
  ∧ (BierDopjeSubtitle.content (Mock.linked "http://dl/junk") = None →
     BierDopjeSubtitle.content
       (Mock.download_subtitle
          (Mock.linked "http://dl/junk", Mock.start)).2.1
     = None).
Proof.
  apply (download_subtitle_invalid (Mock.net Mock.service) Mock.detect
           Mock.decoder Mock.is_valid_subtitle
           (Mock.linked "http://dl/junk") Mock.start "http://dl/junk"
           (Mock.body "junk") "junk"); reflexivity.
Defined.

(** The payload of [http://dl/empty] is empty and the detector proposes
    nothing for it. *)
Lemma download_subtitle_no_encoding_witness :
  Mock.download_subtitle (Mock.linked "http://dl/empty", Mock.start)
  = (Raise TypeError,
     (Mock.linked "http://dl/empty", sent Mock.start "http://dl/empty")).
Proof.
  apply (download_subtitle_no_encoding (Mock.net Mock.service) Mock.detect
           Mock.decoder Mock.is_valid_subtitle
           (Mock.linked "http://dl/empty") Mock.start "http://dl/empty" []);
    reflexivity.
Defined.

(** ** Show identity *)

Section ResolverFacts.

Variable lower : string → string.

(** What [first_with_name] finds: the identifier of an entry with the
    wanted name that no entry with that name precedes. *)
Lemma first_with_name_Some (wanted : string) (entries : list (string * Z))
    (id : Z) :
  first_with_name lower wanted entries = Some id ↔
  ∃ before name after,
    entries = (before ++ (name, id) :: after)%list
    ∧ lower name = wanted
    ∧ Forall (λ entry, lower entry.1 ≠ wanted) before.
Proof.
  unfold first_with_name. induction entries as [|[name' id'] entries IH].
  - split; [done |]. intros (before & name & after & Heq & _).
    by destruct before.
  - simpl. destruct (String.eqb_spec (lower name') wanted) as [Hname|Hname].
    + simpl. split.
      * intros [= ->]. exists [], name', entries. repeat split; [done |].
        constructor.
      * intros (before & name & after & Heq & Hwanted & Hbefore).
        destruct before as [|entry before]; simplify_eq/=; [done |].
        by inversion Hbefore.
    + rewrite IH. split.
      * intros (before & name & after & -> & Hwanted & Hbefore).
        exists ((name', id') :: before), name, after.
        repeat split; [done |]. by constructor.
      * intros (before & name & after & Heq & Hwanted & Hbefore).
        destruct before as [|entry before]; simplify_eq/=.
        inversion Hbefore; subst. by exists before, name, after.
Qed.

Lemma first_with_name_None (wanted : string) (entries : list (string * Z)) :
  first_with_name lower wanted entries = None ↔
  Forall (λ entry, lower entry.1 ≠ wanted) entries.
Proof.
  unfold first_with_name. induction entries as [|[name id] entries IH].
  - split; [constructor | done].
  - simpl. destruct (String.eqb_spec (lower name) wanted) as [Hname|Hname].
    + simpl. split; [done |]. by inversion 1.
    + rewrite IH. split; [by constructor | by inversion 1].
Qed.

Lemma showname_entry (e : Element) (entry : string * Z) :
  show_entry e entry → showname lower e = Ok (lower entry.1).
Proof.
  intros (_ & (n & Hn & Htext) & _). unfold showname.
  rewrite Hn. simpl. by rewrite Htext.
Qed.

Lemma showid_entry (e : Element) (entry : string * Z) :
  show_entry e entry → showid e = Ok entry.2.
Proof.
  intros (_ & _ & (i & t & Hi & Htext & Hint)). unfold showid, int_text.
  rewrite Hi. simpl. by rewrite Htext, Hint.
Qed.

(** A search loop over well-formed entries finds what the policy names. *)
Lemma first_named_entries (wanted : string) (results : list Element)
    (entries : list (string * Z)) :
  Forall2 show_entry results entries →
  first_named lower wanted results = Ok (first_with_name lower wanted entries).
Proof.
  unfold first_with_name.
  induction 1 as [|e entry results entries Hentry _ IH]; [done |].
  simpl. rewrite (showname_entry _ _ Hentry). simpl.
  destruct (lower entry.1 =? wanted)%string; [| done].
  by rewrite (showid_entry _ _ Hentry).
Qed.

Lemma iterfind_app (p1 p2 : list ET.step) (ctx : list Element) :
  ET.iterfind (p1 ++ p2) ctx = ET.iterfind p2 (ET.iterfind p1 ctx).
Proof. revert ctx. induction p1 as [|s p1 IH]; intros ctx; simpl; auto. Qed.

(** The last resort of [find_show_id] reads the first entry. *)
Lemma first_showid_entry (root res e : Element) (rest : list Element)
    (entry : string * Z) :
  ET.find path_results root = Some res →
  children res = e :: rest →
  show_entry e entry →
  int_text (ET.find path_first_showid root) = Ok entry.2.
Proof.
  intros Hres Hchildren Hentry.
  pose proof (showid_entry _ _ Hentry) as Hid. unfold showid in Hid.
  destruct Hentry as (Htag & _ & _).
  unfold ET.find in *.
  change path_first_showid
    with (path_results ++ [ET.FirstChild "result"; ET.Child "showid"])%list.
  rewrite iterfind_app.
  destruct (ET.iterfind path_results [root]) as [|res' others]; [done |].
  injection Hres as ->.
  assert (Hresult : ET.tagged "result" e = true)
    by (unfold ET.tagged; by rewrite Htag).
  simpl. rewrite Hchildren. simpl. rewrite Hresult. simpl.
  simpl in Hid. rewrite app_nil_r in Hid.
  destruct (List.filter (ET.tagged "showid") (children e)) as [|i ids];
    [done |].
  done.
Qed.

(** The body of [find_show_id] on a well-formed answer with results. *)
Lemma select_show_id_entries (series : string) (year : option Z)
    (root : Element) (entries : list (string * Z)) :
  show_search_response root entries →
  entries ≠ [] →
  select_show_id lower series year root = Ok (resolve_spec lower series year entries).
Proof.
  intros [(st & Hst & Hflag) (res & Hres & Hentries)] Hsome.
  assert (Hlast : Some <$> int_text (ET.find path_first_showid root)
                  = Ok (snd <$> head entries)).
  { destruct entries as [|entry entries']; [done |].
    inversion Hentries as [|e ? results ? Hentry _ Hchildren]; subst.
    by rewrite (first_showid_entry root res e results entry). }
  unfold select_show_id, resolve_spec.
  rewrite Hst. cbn [deref]. rewrite result_bind_ok.
  rewrite bool_decide_eq_false_2 by done.
  rewrite Hres. cbn [iter].
  destruct year as [y|].
  - rewrite !result_bind_ok, !(first_named_entries _ _ _ Hentries),
      !result_bind_ok.
    cbv beta.
    destruct (first_with_name lower (series +:+ _) entries) as [id|]; [done |].
    by destruct (first_with_name lower series entries).
  - unfold mret at 1, Result_ret.
    rewrite !result_bind_ok, !(first_named_entries _ _ _ Hentries),
      !result_bind_ok.
    cbv beta. by destruct (first_with_name lower series entries).
Qed.

End ResolverFacts.

(** The policy, clause by clause. *)
Lemma resolve_spec_priority (lower : string → string) (series : string)
    (year : option Z) (entries : list (string * Z)) :
  let qualified := λ y, series +:+ " (" +:+ Py.str_int y +:+ ")" in
  let no_qualified :=
    year = None
    ∨ ∃ y, year = Some y
           ∧ first_with_name lower (qualified y) entries = None in
  (∀ y id, year = Some y →
           first_with_name lower (qualified y) entries = Some id →
           resolve_spec lower series year entries = Some id)
  ∧ (∀ id, no_qualified → first_with_name lower series entries = Some id →
           resolve_spec lower series year entries = Some id)
  ∧ (no_qualified → first_with_name lower series entries = None →
     resolve_spec lower series year entries = snd <$> head entries).
Proof.
  cbv zeta. unfold resolve_spec. repeat split.
  - intros y id -> Hfirst. by rewrite Hfirst.
  - intros id [-> | (y & -> & Hnone)] Hbare; [| rewrite Hnone];
      by rewrite Hbare.
  - intros [-> | (y & -> & Hnone)] Hbare; [| rewrite Hnone];
      by rewrite Hbare.
Qed.

(** The scripted answer to the search for [lost] is well formed. *)
Lemma shows_doc_response :
  show_search_response Mock.shows_doc [("lost (2004)", 1); ("lost", 2)].
Proof.
  split.
  - eexists. split; [reflexivity | discriminate].
  - eexists. split; [reflexivity |].
    repeat constructor; simpl; eexists; eauto.
Qed.

(** C1 (as amended): on an answer whose status flag is not ['false'] and
    that lists at least one result, each a [result] entry with a display
    name and a numeric identifier, [find_show_id] issues the search
    request and returns an identifier chosen in this order, whatever
    lowercasing [str.lower] is: with a year, the first entry whose
    lowercased name is [series (year)]; else the first entry whose
    lowercased name is [series]; else the first entry.  On an answer whose
    status flag is ['false'] it returns [None], whatever the answer lists.
    On the entries [lost (2004)] with identifier 1 and [lost] with
    identifier 2 the search for [lost] gives 1 with the year 2004 and 2
    without a year. *)
Theorem find_show_id_priority :
  (∀ (net : list string → string → HttpOutcome)
     (fromstring : bytes → option Element) (quote lower : string → string)
     (series : string) (year : option Z) (w : World) (c : bytes)
     (root : Element) (entries : list (string * Z)),
     let url := base_url +:+ "FindShowByName/" +:+ quote series in
     net (requests w) url = Response 200 c →
     fromstring c = Some root →
     ET.find path_error_msg root = None →
     show_search_response root entries →
     entries ≠ [] →
     find_show_id net fromstring quote lower series year w
     = (Ok (resolve_spec lower series year entries), sent w url)
     ∧ is_Some (resolve_spec lower series year entries))
  ∧ (∀ (net : list string → string → HttpOutcome)
       (fromstring : bytes → option Element) (quote lower : string → string)
       (series : string) (year : option Z) (w : World) (c : bytes)
       (root st : Element),
       let url := base_url +:+ "FindShowByName/" +:+ quote series in
       net (requests w) url = Response 200 c →
       fromstring c = Some root →
       ET.find path_error_msg root = None →
       ET.find path_status root = Some st →
       text st = Some "false" →
       find_show_id net fromstring quote lower series year w
       = (Ok None, sent w url))
  ∧ (Mock.find_show_id "lost" (Some 2004) Mock.start).1 = Ok (Some 1)
  ∧ (Mock.find_show_id "lost" None Mock.start).1 = Ok (Some 2).
Proof.
  split; [| split; [| split; reflexivity]].
  - intros net fromstring quote lower series year w c root entries url
      Hout Hroot Herror Hresponse Hsome.
    split.
    + unfold find_show_id. rewrite bind_run, get_run. fold url.
      rewrite Hout. simpl. rewrite Hroot, Herror. unfold lift.
      by rewrite (select_show_id_entries lower _ _ _ _ Hresponse Hsome).
    + unfold resolve_spec.
      destruct entries as [|entry entries]; [done |].
      destruct (match year with Some _ => _ | None => _ end); [done |].
      by destruct (first_with_name lower series (entry :: entries)).
  - intros net fromstring quote lower series year w c root st url
      Hout Hroot Herror Hst Hflag.
    unfold find_show_id. rewrite bind_run, get_run. fold url.
    rewrite Hout. simpl. rewrite Hroot, Herror. unfold lift, select_show_id.
    rewrite Hst. cbn [deref]. rewrite result_bind_ok.
    by rewrite bool_decide_eq_true_2.
Qed.

(** The general clause of the theorem, at the scripted service. *)
Lemma find_show_id_priority_witness :
  Mock.find_show_id "lost" (Some 2004) Mock.start
  = (Ok (resolve_spec Py.lower "lost" (Some 2004)
           [("lost (2004)", 1); ("lost", 2)]),
     sent Mock.start (base_url +:+ "FindShowByName/" +:+ Mock.quote "lost"))
  ∧ is_Some (resolve_spec Py.lower "lost" (Some 2004)
               [("lost (2004)", 1); ("lost", 2)]).
Proof.
  apply (proj1 find_show_id_priority (Mock.net Mock.service)
           (Mock.fromstring Mock.documents) Mock.quote Py.lower "lost"
           (Some 2004) Mock.start (Mock.body "shows") Mock.shows_doc
           [("lost (2004)", 1); ("lost", 2)]).
  - reflexivity.
  - reflexivity.
  - reflexivity.
  - exact shows_doc_response.
  - discriminate.
Defined.

(** C1 as stated fails on an answer that contains a result and has the
    status flag ['false']: the answer to the search for [unknown] lists
    the well-formed entry [lost] with identifier 2, so that the first
    result would be selected, and [find_show_id] returns [None]. *)
Lemma find_show_id_priority_counterexample :
  Script.net (requests Mock.start) (base_url +:+ "FindShowByName/unknown")
  = Response 200 (Mock.body "none")
  ∧ Script.fromstring (Mock.body "none") = Some Script.none_doc
  ∧ ET.find path_error_msg Script.none_doc = None
  ∧ (∃ res, ET.find path_results Script.none_doc = Some res
            ∧ Forall2 show_entry (children res) [("lost", 2)])
  ∧ Script.find_show_id "unknown" None Mock.start
    = (Ok None, sent Mock.start (base_url +:+ "FindShowByName/unknown")).
Proof.
  repeat split.
  eexists. split; [reflexivity |].
  repeat constructor; simpl; eexists; eauto.
Qed.

(** With the scripted service, whose resolver is the body of
    [find_show_id] without its cache, the subtitles of the English query
    come before those of the Dutch one, each group in the order of its
    answer. *)
Example list_subtitles_en_nl :
  let run := Mock.list_subtitles Mock.lost [eng; nld] Mock.start in
  fmap (M := Result) (map BierDopjeSubtitle.filename) run.1
  = Ok [Some "Lost.S01E02.a.en"; Some "Lost.S01E02.b.en";
        Some "Lost.S01E02.a.nl"; Some "Lost.S01E02.b.nl"]
  ∧ length (requests run.2) = 4%nat.
Proof. split; reflexivity. Qed.

(** * Further properties of the provider *)

(** ** Lowercasing *)

Lemma lower_char_idemp (c : ascii) :
  Py.lower_char (Py.lower_char c) = Py.lower_char c.
Proof. destruct c as [[] [] [] [] [] [] [] []]; reflexivity. Qed.

Lemma lower_idemp (s : string) : Py.lower (Py.lower s) = Py.lower s.
Proof.
  induction s as [|c s IH]; [done |]. simpl.
  by rewrite lower_char_idemp, IH.
Qed.

Lemma lower_app (s t : string) :
  Py.lower (s +:+ t) = Py.lower s +:+ Py.lower t.
Proof. induction s as [|c s IH]; [done |]. simpl. by rewrite IH. Qed.

Lemma string_app_length (s t : string) :
  String.length (s +:+ t) = (String.length s + String.length t)%nat.
Proof.
  induction s as [|c s IH]; [done |].
  change (S (String.length (s +:+ t))
          = S (String.length s + String.length t)).
  by rewrite IH.
Qed.

Lemma string_app_inj_length (s1 s2 t1 t2 : string) :
  String.length s1 = String.length s2 →
  s1 +:+ t1 = s2 +:+ t2 →
  s1 = s2.
Proof.
  revert s2. induction s1 as [|c s1 IH]; intros [|c' s2]; simpl; try done.
  intros [= Hlen] [= -> Happ]. f_equal. by apply IH.
Qed.

Lemma string_app_cancel_r (s1 s2 t : string) :
  s1 +:+ t = s2 +:+ t → s1 = s2.
Proof.
  intros Heq. apply (string_app_inj_length s1 s2 t t); [| done].
  apply (f_equal String.length) in Heq.
  rewrite !string_app_length in Heq. lia.
Qed.

(** A lowercased text is never a text that lowercasing changes, nor
    such a text followed by a text that lowercasing keeps; the lowercasing
    is any function that is idempotent and goes through concatenation, as
    one that works character by character does. *)
Lemma lower_never_mixed (lower : string → string) (name series : string) :
  (∀ s, lower (lower s) = lower s) →
  lower series ≠ series →
  lower name ≠ series.
Proof.
  intros Htwice Hmixed Heq. apply Hmixed. by rewrite <- Heq, Htwice.
Qed.

Lemma lower_never_mixed_prefix (lower : string → string)
    (name series rest : string) :
  (∀ s, lower (lower s) = lower s) →
  (∀ s t, lower (s +:+ t) = lower s +:+ lower t) →
  lower rest = rest →
  lower series ≠ series →
  lower name ≠ series +:+ rest.
Proof.
  intros Htwice Happend Hrest Hmixed Heq. apply Hmixed.
  assert (Hfix : lower (series +:+ rest) = series +:+ rest)
    by (by rewrite <- Heq, Htwice).
  rewrite Happend, Hrest in Hfix.
  by apply (string_app_cancel_r _ _ rest).
Qed.


(** ** Requests and failures of the resolver *)

Section ResolverRuns.

Variable net : list string → string → HttpOutcome.
Variable fromstring : bytes → option Element.
Variable quote : string → string.
Variable lower : string → string.

(** One run of [find_show_id]: the search request, then the selection on
    the document that [get] returned. *)
Lemma find_show_id_run (series : string) (year : option Z) (w : World) :
  find_show_id net fromstring quote lower series year w
  = ((get net fromstring ("FindShowByName/" +:+ quote series) w).1
       ≫= select_show_id lower series year,
     sent w (base_url +:+ "FindShowByName/" +:+ quote series)).
Proof.
  unfold find_show_id. rewrite bind_run.
  pose proof (get_requests net fromstring
                ("FindShowByName/" +:+ quote series) w) as Hsent.
  destruct (get net fromstring _ w) as [[root|e] w1]; simpl in *;
    by rewrite Hsent.
Qed.

(** [get] on an answer with status 200 whose body parses to a document
    without an error node. *)
Lemma get_document (url : string) (w : World) (c : bytes) (root : Element) :
  net (requests w) (base_url +:+ url) = Response 200 c →
  fromstring c = Some root →
  ET.find path_error_msg root = None →
  get net fromstring url w = (Ok root, sent w (base_url +:+ url)).
Proof.
  intros Hout Hroot Herror. rewrite get_run, Hout. simpl.
  by rewrite Hroot, Herror.
Qed.

(** [find_show_id] on such an answer is the selection on its document. *)
Lemma find_show_id_document (series : string) (year : option Z) (w : World)
    (c : bytes) (root : Element) :
  net (requests w) (base_url +:+ "FindShowByName/" +:+ quote series)
  = Response 200 c →
  fromstring c = Some root →
  ET.find path_error_msg root = None →
  find_show_id net fromstring quote lower series year w
  = (select_show_id lower series year root,
     sent w (base_url +:+ "FindShowByName/" +:+ quote series)).
Proof.
  intros Hout Hroot Herror.
  by rewrite find_show_id_run, (get_document _ _ c root).
Qed.

(** X2: when the answer to the search has the status flag ['false'],
    [find_show_id] returns [None], whatever else the document lists and
    whatever the year, and a [query] by series returns the empty list
    after that single request. *)
Theorem query_unknown_series (language : Language)
    (season episode year : option Z) (name : string) (w : World) (c : bytes)
    (root st : Element) :
  let url := base_url +:+ "FindShowByName/" +:+ quote (lower name) in
  net (requests w) url = Response 200 c →
  fromstring c = Some root →
  ET.find path_error_msg root = None →
  ET.find path_status root = Some st →
  text st = Some "false" →
  find_show_id net fromstring quote lower (lower name) year w
  = (Ok None, sent w url)
  ∧ query net fromstring lower (find_show_id net fromstring quote lower) language season
      episode None (Some name) year w
    = (Ok [], sent w url).
Proof.
  intros url Hout Hroot Herror Hst Hflag.
  assert (Hfind : find_show_id net fromstring quote lower (lower name) year w
                  = (Ok None, sent w url)).
  { rewrite (find_show_id_document _ _ _ c root) by done.
    unfold select_show_id. rewrite Hst. cbn [deref].
    rewrite result_bind_ok. by rewrite bool_decide_eq_true_2. }
  split; [done |]. unfold query. by rewrite bind_run, Hfind.
Qed.

(** X3: an exception of the search request (a timeout, a 429, another
    status, a body that does not parse, an error node) ends a [query] by
    series: it is raised by [query] and no request for subtitles follows. *)
Theorem query_resolution_failure (language : Language)
    (season episode year : option Z) (name : string) (w : World) (e : exn) :
  let url := "FindShowByName/" +:+ quote (lower name) in
  (get net fromstring url w).1 = Raise e →
  query net fromstring lower (find_show_id net fromstring quote lower) language season
    episode None (Some name) year w
  = (Raise e, sent w (base_url +:+ url)).
Proof.
  intros url Hget. unfold query.
  rewrite bind_run, find_show_id_run. fold url. by rewrite Hget.
Qed.

(** X4: a [query] by series on a well-formed search answer with results
    continues as the request for the subtitles of the selected show, with
    the flag ['false']; the show is selected for the lowercased series. *)
Theorem query_by_series_resolves (language : Language)
    (season episode year : option Z) (name : string) (w : World) (c : bytes)
    (root : Element) (entries : list (string * Z)) :
  let url := base_url +:+ "FindShowByName/" +:+ quote (lower name) in
  net (requests w) url = Response 200 c →
  fromstring c = Some root →
  ET.find path_error_msg root = None →
  show_search_response root entries →
  entries ≠ [] →
  ∃ id,
    resolve_spec lower (lower name) year entries = Some id
    ∧ query net fromstring lower (find_show_id net fromstring quote lower) language
        season episode None (Some name) year w
      = search net fromstring language season episode None (Some name) year
          id "false" (sent w url).
Proof.
  intros url Hout Hroot Herror Hresponse Hsome.
  pose proof (select_show_id_entries lower (lower name) year root entries
                Hresponse Hsome) as Hselect.
  assert (Hid : is_Some (resolve_spec lower (lower name) year entries)).
  { unfold resolve_spec. destruct entries as [|entry entries]; [done |].
    destruct (match year with Some _ => _ | None => _ end); [done |].
    by destruct (first_with_name lower (lower name) (entry :: entries)). }
  destruct Hid as [id Hid]. exists id. split; [done |].
  unfold query.
  rewrite bind_run, (find_show_id_document _ _ _ c root) by done.
  by rewrite Hselect, Hid.
Qed.

(** X5: with a year, the entry with the year-qualified name is selected
    wherever it stands in the list, also behind entries with the bare
    name. *)
Theorem find_show_id_qualified_wins (series : string) (y : Z) (w : World)
    (c : bytes) (root : Element) (before after : list (string * Z))
    (name : string) (id : Z) :
  let url := base_url +:+ "FindShowByName/" +:+ quote series in
  let qualified := series +:+ " (" +:+ Py.str_int y +:+ ")" in
  net (requests w) url = Response 200 c →
  fromstring c = Some root →
  ET.find path_error_msg root = None →
  show_search_response root (before ++ (name, id) :: after) →
  lower name = qualified →
  Forall (λ entry, lower entry.1 ≠ qualified) before →
  find_show_id net fromstring quote lower series (Some y) w
  = (Ok (Some id), sent w url).
Proof.
  intros url qualified Hout Hroot Herror Hresponse Hname Hbefore.
  rewrite (find_show_id_document _ _ _ c root) by done.
  rewrite (select_show_id_entries _ _ _ _ _ Hresponse)
    by (by destruct before).
  unfold resolve_spec.
  assert (Hfirst : first_with_name lower qualified (before ++ (name, id) :: after)
                   = Some id).
  { apply first_with_name_Some. by exists before, name, after. }
  unfold qualified in Hfirst. by rewrite Hfirst.
Qed.

(** X7: when the status flag is not ['false'] and the only result list
    of the answer is empty, [find_show_id] does not return [None]: reading
    the first entry raises [AttributeError]. *)
Theorem find_show_id_empty_results (series : string) (year : option Z)
    (w : World) (c : bytes) (root st res : Element) :
  let url := base_url +:+ "FindShowByName/" +:+ quote series in
  net (requests w) url = Response 200 c →
  fromstring c = Some root →
  ET.find path_error_msg root = None →
  ET.find path_status root = Some st →
  text st ≠ Some "false" →
  ET.iterfind path_results [root] = [res] →
  children res = [] →
  find_show_id net fromstring quote lower series year w
  = (Raise AttributeError, sent w url).
Proof.
  intros url Hout Hroot Herror Hst Hflag Hres Hnone.
  rewrite (find_show_id_document _ _ _ c root) by done.
  assert (Hfind : ET.find path_results root = Some res)
    by (unfold ET.find; by rewrite Hres).
  assert (Hlast : ET.find path_first_showid root = None).
  { unfold ET.find.
    change path_first_showid
      with (path_results
            ++ [ET.FirstChild "result"; ET.Child "showid"])%list.
    rewrite iterfind_app, Hres. simpl. by rewrite Hnone. }
  unfold select_show_id. rewrite Hst. cbn [deref].
  rewrite result_bind_ok, bool_decide_eq_false_2 by done.
  rewrite Hfind, Hlast. cbn [iter]. rewrite Hnone.
  by destruct year.
Qed.

(** X6: [find_show_id] compares lowercased names with the series as it
    is given.  For a lowercasing that works character by character (it is
    idempotent, it goes through concatenation, and it keeps the year in
    brackets) and a series that lowercasing changes, no name matches, with
    or without a year, and the first entry is returned. *)
Theorem find_show_id_needs_lowercase (series : string) (year : option Z)
    (w : World) (c : bytes) (root : Element) (entry : string * Z)
    (rest : list (string * Z)) :
  let url := base_url +:+ "FindShowByName/" +:+ quote series in
  (∀ s, lower (lower s) = lower s) →
  (∀ s t, lower (s +:+ t) = lower s +:+ lower t) →
  (∀ y, year = Some y →
        lower (" (" +:+ Py.str_int y +:+ ")")
        = " (" +:+ Py.str_int y +:+ ")") →
  lower series ≠ series →
  net (requests w) url = Response 200 c →
  fromstring c = Some root →
  ET.find path_error_msg root = None →
  show_search_response root (entry :: rest) →
  find_show_id net fromstring quote lower series year w
  = (Ok (Some entry.2), sent w url).
Proof.
  intros url Htwice Happend Hsuffix Hmixed Hout Hroot Herror Hresponse.
  rewrite (find_show_id_document _ _ _ c root) by done.
  rewrite (select_show_id_entries _ _ _ _ _ Hresponse) by done.
  unfold resolve_spec.
  assert (Hbare : first_with_name lower series (entry :: rest) = None).
  { apply first_with_name_None, Forall_forall. intros e _.
    by apply lower_never_mixed. }
  rewrite Hbare. destruct year as [y|]; [| done].
  assert (Hqualified :
    first_with_name lower (series +:+ " (" +:+ Py.str_int y +:+ ")")
      (entry :: rest) = None).
  { apply first_with_name_None, Forall_forall. intros e _.
    apply lower_never_mixed_prefix; try done. by apply Hsuffix. }
  by rewrite Hqualified.
Qed.


End ResolverRuns.

(** The answer of the second service to the search for [lost]: the bare
    name first, the year-qualified name second, both capitalised. *)
Lemma swapped_doc_response :
  show_search_response (Mock.answer "true"
                          [Mock.show "Lost" "2"; Mock.show "Lost (2004)" "1"])
    [("Lost", 2); ("Lost (2004)", 1)].
Proof.
  split.
  - eexists. split; [reflexivity | discriminate].
  - eexists. split; [reflexivity |].
    repeat constructor; simpl; eexists; eauto.
Qed.

(** The search for [unknown] is answered with the flag ['false'],
    although the document lists an entry. *)
Lemma query_unknown_series_witness :
  Script.find_show_id (Py.lower "Unknown") None Mock.start
  = (Ok None,
     sent Mock.start
       (base_url +:+ "FindShowByName/" +:+ Mock.quote (Py.lower "Unknown")))
  ∧ Script.query eng (Some 1) (Some 2) None (Some "Unknown") None Mock.start
    = (Ok [],
       sent Mock.start
         (base_url +:+ "FindShowByName/"
          +:+ Mock.quote (Py.lower "Unknown"))).
Proof.
  apply (query_unknown_series Script.net Script.fromstring Mock.quote
           Py.lower eng
           (Some 1) (Some 2) None "Unknown" Mock.start (Mock.body "none")
           (Mock.answer "false" [Mock.show "lost" "2"])
           (Mock.leaf "status" "false")); reflexivity.
Defined.

(** The search for [slow] times out. *)
Lemma query_resolution_failure_witness :
  Script.query eng (Some 1) (Some 2) None (Some "Slow") None Mock.start
  = (Raise (ProviderNotAvailable "Timeout after 10 seconds"),
     sent Mock.start
       (base_url +:+ "FindShowByName/" +:+ Mock.quote (Py.lower "Slow"))).
Proof.
  apply (query_resolution_failure Script.net Script.fromstring Mock.quote
           Py.lower eng
           (Some 1) (Some 2) None "Slow" Mock.start
           (ProviderNotAvailable "Timeout after 10 seconds")).
  reflexivity.
Defined.

(** The query for [Lost] of 2004 goes on with the show 1. *)
Lemma query_by_series_resolves_witness :
  ∃ id,
    resolve_spec Py.lower (Py.lower "Lost") (Some 2004)
      [("Lost", 2); ("Lost (2004)", 1)] = Some id
    ∧ Script.query eng (Some 1) (Some 2) None (Some "Lost") (Some 2004)
        Mock.start
      = search Script.net Script.fromstring eng (Some 1) (Some 2) None
          (Some "Lost") (Some 2004) id "false"
          (sent Mock.start
             (base_url +:+ "FindShowByName/"
              +:+ Mock.quote (Py.lower "Lost"))).
Proof.
  apply (query_by_series_resolves Script.net Script.fromstring Mock.quote
           Py.lower eng
           (Some 1) (Some 2) (Some 2004) "Lost" Mock.start
           (Mock.body "swapped")
           (Mock.answer "true"
              [Mock.show "Lost" "2"; Mock.show "Lost (2004)" "1"])
           [("Lost", 2); ("Lost (2004)", 1)]).
  - reflexivity.
  - reflexivity.
  - reflexivity.
  - exact swapped_doc_response.
  - discriminate.
Defined.

(** The qualified entry stands behind the bare one and is selected. *)
Lemma find_show_id_qualified_wins_witness :
  Script.find_show_id "lost" (Some 2004) Mock.start
  = (Ok (Some 1),
     sent Mock.start (base_url +:+ "FindShowByName/" +:+ Mock.quote "lost")).
Proof.
  apply (find_show_id_qualified_wins Script.net Script.fromstring Mock.quote
           Py.lower 
           "lost" 2004 Mock.start (Mock.body "swapped")
           (Mock.answer "true"
              [Mock.show "Lost" "2"; Mock.show "Lost (2004)" "1"])
           [("Lost", 2)] [] "Lost (2004)" 1).
  - reflexivity.
  - reflexivity.
  - reflexivity.
  - exact swapped_doc_response.
  - reflexivity.
  - repeat constructor. discriminate.
Defined.

(** Asked for [Lost] with a capital, the resolver returns the first
    entry, although the second one is the show of 2004. *)
Lemma find_show_id_needs_lowercase_witness :
  Script.find_show_id "Lost" (Some 2004) Mock.start
  = (Ok (Some 2),
     sent Mock.start (base_url +:+ "FindShowByName/" +:+ Mock.quote "Lost")).
Proof.
  apply (find_show_id_needs_lowercase Script.net Script.fromstring Mock.quote
           Py.lower 
           "Lost" (Some 2004) Mock.start (Mock.body "swapped")
           (Mock.answer "true"
              [Mock.show "Lost" "2"; Mock.show "Lost (2004)" "1"])
           ("Lost", 2) [("Lost (2004)", 1)]).
  - exact lower_idemp.
  - exact lower_app.
  - intros y [= <-]. reflexivity.
  - discriminate.
  - reflexivity.
  - reflexivity.
  - reflexivity.
  - exact swapped_doc_response.
Defined.

(** The search for [nothing] is answered with an empty result list. *)
Lemma find_show_id_empty_results_witness :
  Script.find_show_id "nothing" None Mock.start
  = (Raise AttributeError,
     sent Mock.start
       (base_url +:+ "FindShowByName/" +:+ Mock.quote "nothing")).
Proof.
  apply (find_show_id_empty_results Script.net Script.fromstring Mock.quote
           Py.lower 
           "nothing" None Mock.start (Mock.body "empty")
           (Mock.answer "true" []) (Mock.leaf "status" "true")
           (Elem "results" None [])).
  - reflexivity.
  - reflexivity.
  - reflexivity.
  - reflexivity.
  - discriminate.
  - reflexivity.
  - reflexivity.
Defined.

(** ** Answers to the subtitle request *)

Section QueryRuns.

Variable net : list string → string → HttpOutcome.
Variable fromstring : bytes → option Element.
Variable lower : string → string.

(** An entry from which a subtitle can be built: it has both children. *)
Lemma parse_subtitles_total (language : Language)
    (season episode tvdb_id : option Z) (series : option string)
    (year : option Z) (results : list Element) :
  Forall (λ e, is_Some (ET.find [ET.Child "filename"] e)
               ∧ is_Some (ET.find [ET.Child "downloadlink"] e)) results →
  ∃ subs,
    parse_subtitles language season episode tvdb_id series year results
    = Ok subs.
Proof.
  induction 1 as [|e results [[fn Hfn] [dl Hdl]] _ [subs IH]].
  - by exists [].
  - eexists. unfold parse_subtitles in *. simpl.
    rewrite Hfn, Hdl. simpl. rewrite IH. reflexivity.
Qed.

Lemma parse_subtitles_fails (language : Language)
    (season episode tvdb_id : option Z) (series : option string)
    (year : option Z) (results : list Element) :
  Exists (λ e, ET.find [ET.Child "filename"] e = None
               ∨ ET.find [ET.Child "downloadlink"] e = None) results →
  parse_subtitles language season episode tvdb_id series year results
  = Raise AttributeError.
Proof.
  induction results as [|e results IH]; [by inversion 1 |].
  intros Hbad. unfold parse_subtitles in *. simpl.
  destruct (ET.find [ET.Child "filename"] e) as [fn|] eqn:Hfn; [| done].
  simpl.
  destruct (ET.find [ET.Child "downloadlink"] e) as [dl|] eqn:Hdl; [| done].
  simpl. inversion Hbad as [? ? [Hno | Hno]|? ? Hrest]; subst;
    [congruence | congruence |].
  by rewrite (IH Hrest).
Qed.

(** The request for subtitles on an answer with status 200 whose body
    parses to a document without an error node. *)
Lemma search_document (language : Language)
    (season episode tvdb_id : option Z) (series : option string)
    (year : option Z) (showid : Z) (flag : string) (w : World) (c : bytes)
    (root : Element) :
  let url := base_url
             +:+ subs_url showid season episode (alpha2 language) flag in
  net (requests w) url = Response 200 c →
  fromstring c = Some root →
  ET.find path_error_msg root = None →
  search net fromstring language season episode tvdb_id series year showid
    flag w
  = (read_subtitles language season episode tvdb_id series year root,
     sent w url).
Proof.
  intros url Hout Hroot Herror. unfold search.
  by rewrite bind_run, (get_document net fromstring _ _ c root).
Qed.

(** X8: on a well-formed answer to the subtitle request (status flag
    not ['false'], every entry of the result list with a [filename] and a
    [downloadlink] child) a [query] by identifier returns: one subtitle per
    entry, in the order of the entries, each stamped with the arguments. *)
Theorem query_reads_every_entry
    (resolver : string → option Z → M (option Z)) (language : Language)
    (season episode : option Z) (id : Z) (series : option string)
    (year : option Z) (w : World) (c : bytes) (root st res : Element) :
  let url := base_url
             +:+ subs_url id season episode (alpha2 language) "true" in
  net (requests w) url = Response 200 c →
  fromstring c = Some root →
  ET.find path_error_msg root = None →
  ET.find path_status root = Some st →
  text st ≠ Some "false" →
  ET.find path_results root = Some res →
  Forall (λ e, is_Some (ET.find [ET.Child "filename"] e)
               ∧ is_Some (ET.find [ET.Child "downloadlink"] e))
    (children res) →
  ∃ subs,
    query net fromstring lower resolver language season episode (Some id) series
      year w
    = (Ok subs, sent w url)
    ∧ length subs = length (children res)
    ∧ Forall2 read_from (children res) subs
    ∧ Forall (stamped language season episode (Some id) series year) subs.
Proof.
  intros url Hout Hroot Herror Hst Hflag Hres Hentries.
  destruct (parse_subtitles_total language season episode (Some id) series
              year _ Hentries) as [subs Hsubs].
  exists subs.
  destruct (parse_subtitles_spec _ _ _ _ _ _ _ _ Hsubs) as [Hstamped Hread].
  split; [| split; [by rewrite (Forall2_length _ _ _ Hread) | done]].
  unfold query. rewrite (search_document _ _ _ _ _ _ _ _ _ c root) by done.
  unfold read_subtitles. rewrite Hst. cbn [deref].
  rewrite result_bind_ok, bool_decide_eq_false_2 by done.
  rewrite Hres. cbn [iter]. by rewrite result_bind_ok, Hsubs.
Qed.

(** X9: one entry without a [filename] or without a [downloadlink]
    child makes the whole [query] raise [AttributeError]: the subtitles of
    the other entries are not returned. *)
Theorem query_malformed_entry
    (resolver : string → option Z → M (option Z)) (language : Language)
    (season episode : option Z) (id : Z) (series : option string)
    (year : option Z) (w : World) (c : bytes) (root st res : Element) :
  let url := base_url
             +:+ subs_url id season episode (alpha2 language) "true" in
  net (requests w) url = Response 200 c →
  fromstring c = Some root →
  ET.find path_error_msg root = None →
  ET.find path_status root = Some st →
  text st ≠ Some "false" →
  ET.find path_results root = Some res →
  Exists (λ e, ET.find [ET.Child "filename"] e = None
               ∨ ET.find [ET.Child "downloadlink"] e = None)
    (children res) →
  query net fromstring lower resolver language season episode (Some id) series
    year w
  = (Raise AttributeError, sent w url).
Proof.
  intros url Hout Hroot Herror Hst Hflag Hres Hbad.
  unfold query. rewrite (search_document _ _ _ _ _ _ _ _ _ c root) by done.
  unfold read_subtitles. rewrite Hst. cbn [deref].
  rewrite result_bind_ok, bool_decide_eq_false_2 by done.
  rewrite Hres. cbn [iter].
  by rewrite result_bind_ok, (parse_subtitles_fails _ _ _ _ _ _ _ Hbad).
Qed.

(** X10: when the answer to the subtitle request has the status flag
    ['false'], [query] returns the empty list, whatever entries the
    document lists. *)
Theorem query_no_subtitles
    (resolver : string → option Z → M (option Z)) (language : Language)
    (season episode : option Z) (id : Z) (series : option string)
    (year : option Z) (w : World) (c : bytes) (root st : Element) :
  let url := base_url
             +:+ subs_url id season episode (alpha2 language) "true" in
  net (requests w) url = Response 200 c →
  fromstring c = Some root →
  ET.find path_error_msg root = None →
  ET.find path_status root = Some st →
  text st = Some "false" →
  query net fromstring lower resolver language season episode (Some id) series
    year w
  = (Ok [], sent w url).
Proof.
  intros url Hout Hroot Herror Hst Hflag.
  unfold query. rewrite (search_document _ _ _ _ _ _ _ _ _ c root) by done.
  unfold read_subtitles. rewrite Hst. cbn [deref].
  by rewrite result_bind_ok, bool_decide_eq_true_2.
Qed.

End QueryRuns.

(** ** Runs of [list_subtitles] *)

Section ListRuns.

Variable net : list string → string → HttpOutcome.
Variable fromstring : bytes → option Element.
Variable lower : string → string.
Variable resolver : string → option Z → M (option Z).

(** The subtitles found so far only stand in front of what follows. *)
Lemma collect_acc (video : Video) (languages : list Language)
    (acc : list BierDopjeSubtitle) (w : World) :
  collect net fromstring lower resolver video acc languages w
  = match collect net fromstring lower resolver video [] languages w with
    | (Ok subs, w') => (Ok (acc ++ subs)%list, w')
    | (Raise e, w') => (Raise e, w')
    end.
Proof.
  revert acc w. induction languages as [|l languages IH]; intros acc w.
  - simpl. unfold mret, State_ret. by rewrite app_nil_r.
  - simpl collect. rewrite !bind_run.
    destruct (query _ _ _ _ l _ _ _ _ _ w) as [[subs|e] w1]; [| done].
    rewrite (IH (extend acc subs)), (IH (extend [] subs)), !extend_app.
    destruct (collect _ _ _ _ video [] languages w1) as [[rest|e] w2];
      [| done].
    by rewrite app_assoc.
Qed.

Lemma collect_app (video : Video) (ls1 ls2 : list Language)
    (acc : list BierDopjeSubtitle) (w : World) :
  collect net fromstring lower resolver video acc (ls1 ++ ls2) w
  = match collect net fromstring lower resolver video acc ls1 w with
    | (Ok subs, w') => collect net fromstring lower resolver video subs ls2 w'
    | (Raise e, w') => (Raise e, w')
    end.
Proof.
  revert acc w. induction ls1 as [|l ls1 IH]; intros acc w; [done |].
  simpl app. simpl collect. rewrite !bind_run.
  destruct (query _ _ _ _ l _ _ _ _ _ w) as [[subs|e] w1]; [| done].
  apply IH.
Qed.

Lemma list_subtitles_split (video : Video) (ls1 ls2 : list Language)
    (w : World) :
  list_subtitles net fromstring lower resolver video (ls1 ++ ls2) w
  = match list_subtitles net fromstring lower resolver video ls1 w with
    | (Ok subs1, w1) =>
        match list_subtitles net fromstring lower resolver video ls2 w1 with
        | (Ok subs2, w2) => (Ok (subs1 ++ subs2)%list, w2)
        | (Raise e, w2) => (Raise e, w2)
        end
    | (Raise e, w1) => (Raise e, w1)
    end.
Proof.
  unfold list_subtitles. rewrite collect_app.
  destruct (collect _ _ _ _ video [] ls1 w) as [[subs1|e] w1]; [| done].
  apply collect_acc.
Qed.

(** X11: listing for two sequences of languages in a row is listing for
    the first, then listing for the second on the world the first left,
    and appending; an exception of either part is the exception of the
    whole, and after an exception of the first part the second is not
    run. *)
Theorem list_subtitles_app (video : Video) (ls1 ls2 : list Language)
    (w : World) :
  list_subtitles net fromstring lower resolver video (ls1 ++ ls2) w
  = match list_subtitles net fromstring lower resolver video ls1 w with
    | (Ok subs1, w1) =>
        match list_subtitles net fromstring lower resolver video ls2 w1 with
        | (Ok subs2, w2) => (Ok (subs1 ++ subs2)%list, w2)
        | (Raise e, w2) => (Raise e, w2)
        end
    | (Raise e, w1) => (Raise e, w1)
    end.
Proof. apply list_subtitles_split. Qed.

(** X12: the first query that raises ends [list_subtitles]: its
    exception is raised, the subtitles of the languages before it are not
    returned, and the languages after it are not queried. *)
Theorem list_subtitles_stops_at_failure (video : Video)
    (ls1 ls2 : list Language) (l : Language) (w w1 w2 : World)
    (subs : list BierDopjeSubtitle) (e : exn) :
  list_subtitles net fromstring lower resolver video ls1 w = (Ok subs, w1) →
  query net fromstring lower resolver l (Video.season video) (Video.episode video)
    (Video.tvdb_id video) (Video.series video) (Video.year video) w1
  = (Raise e, w2) →
  list_subtitles net fromstring lower resolver video (ls1 ++ l :: ls2) w
  = (Raise e, w2).
Proof.
  intros Hfirst Hquery. rewrite list_subtitles_split, Hfirst.
  unfold list_subtitles. simpl collect. by rewrite bind_run, Hquery.
Qed.

(** A query by identifier always leaves one more request. *)
Lemma query_by_id_requests (language : Language) (season episode : option Z)
    (id : Z) (series : option string) (year : option Z) (w : World) :
  (query net fromstring lower resolver language season episode (Some id) series
     year w).2
  = sent w (base_url
            +:+ subs_url id season episode (alpha2 language) "true").
Proof. unfold query, search. apply get_then_read_requests. Qed.

(** X13: for a video with an external identifier, [list_subtitles]
    sends one request per language it gets to, in the order of the
    languages, each for that identifier with the flag ['true']; when it
    returns, it has sent one for every language. *)
Theorem list_subtitles_requests (video : Video) (id : Z)
    (languages : list Language) (w : World) :
  let url := λ l : Language,
    base_url +:+ subs_url id (Video.season video) (Video.episode video)
                   (alpha2 l) "true" in
  let run := list_subtitles net fromstring lower resolver video languages w in
  Video.tvdb_id video = Some id →
  (∃ k, (k ≤ length languages)%nat
        ∧ requests run.2 = (requests w ++ (url <$> take k languages))%list)
  ∧ (∀ subs, run.1 = Ok subs →
       requests run.2 = (requests w ++ (url <$> languages))%list).
Proof.
  intros url run Hid. subst run. unfold list_subtitles.
  generalize (@nil BierDopjeSubtitle) as acc.
  revert w. induction languages as [|l languages IH]; intros w acc.
  - simpl. split.
    + exists 0%nat. split; [done |]. by rewrite app_nil_r.
    + intros _ _. by rewrite app_nil_r.
  - simpl collect. rewrite bind_run, Hid.
    pose proof (query_by_id_requests l (Video.season video)
                  (Video.episode video) id (Video.series video)
                  (Video.year video) w) as Hsent.
    change (base_url +:+ subs_url id (Video.season video)
                           (Video.episode video) (alpha2 l) "true")
      with (url l) in Hsent.
    destruct (query _ _ _ _ l _ _ _ _ _ w) as [[subs|e] w1]; simpl in Hsent;
      subst w1.
    + destruct (IH (sent w (url l)) (extend acc subs)) as [(k & Hk & Hreq) Hok].
      split.
      * exists (S k). split; [simpl; lia |].
        rewrite Hreq. simpl. by rewrite <- app_assoc.
      * intros subs' Hrun. rewrite (Hok subs' Hrun). simpl.
        by rewrite <- app_assoc.
    + split; [| done]. exists 1%nat. split; [simpl; lia |].
      simpl. by destruct languages.
Qed.

(** What a query returns carries its arguments. *)
Lemma query_stamped (language : Language)
    (season episode tvdb_id : option Z) (series : option string)
    (year : option Z) (w w' : World) (subs : list BierDopjeSubtitle) :
  query net fromstring lower resolver language season episode tvdb_id series year w
  = (Ok subs, w') →
  Forall (stamped language season episode tvdb_id series year) subs.
Proof.
  assert (Hsearch : ∀ showid flag w1,
    search net fromstring language season episode tvdb_id series year showid
      flag w1 = (Ok subs, w') →
    Forall (stamped language season episode tvdb_id series year) subs).
  { intros showid flag w1 Hrun. unfold search in Hrun.
    apply get_then_read in Hrun as (_ & c & root & _ & _ & Hread).
    by apply read_subtitles_spec in Hread as [Hstamped _]. }
  unfold query. destruct tvdb_id as [id|]; [apply Hsearch |].
  destruct series as [name|]; [| done].
  rewrite bind_run.
  destruct (resolver (lower name) year w) as [[[id|]|e] w1].
  - apply Hsearch.
  - intros [= <- <-]. constructor.
  - done.
Qed.

Lemma list_subtitles_cons (video : Video) (l : Language)
    (languages : list Language) (w : World) :
  list_subtitles net fromstring lower resolver video (l :: languages) w
  = match query net fromstring lower resolver l (Video.season video)
            (Video.episode video) (Video.tvdb_id video)
            (Video.series video) (Video.year video) w with
    | (Ok subs1, w1) =>
        match list_subtitles net fromstring lower resolver video languages w1 with
        | (Ok subs2, w2) => (Ok (subs1 ++ subs2)%list, w2)
        | (Raise e, w2) => (Raise e, w2)
        end
    | (Raise e, w1) => (Raise e, w1)
    end.
Proof.
  unfold list_subtitles. simpl collect. rewrite bind_run.
  destruct (query _ _ _ _ l _ _ _ _ _ w) as [[subs1|e] w1]; [| done].
  by rewrite collect_acc, extend_app.
Qed.

(** What [list_subtitles] returns comes from the video and from one of
    the languages. *)
Lemma list_subtitles_from_video (video : Video) (languages : list Language)
    (w w' : World) (subs : list BierDopjeSubtitle) :
  list_subtitles net fromstring lower resolver video languages w = (Ok subs, w') →
  Forall (λ s, BierDopjeSubtitle.language s ∈ languages
               ∧ stamped (BierDopjeSubtitle.language s) (Video.season video)
                   (Video.episode video) (Video.tvdb_id video)
                   (Video.series video) (Video.year video) s) subs.
Proof.
  revert w subs. induction languages as [|l languages IH]; intros w subs.
  - intros [= <- <-]. constructor.
  - rewrite list_subtitles_cons.
    destruct (query _ _ _ _ l _ _ _ _ _ w) as [[subs1|e] w1] eqn:Hquery;
      [| done].
    destruct (list_subtitles _ _ _ _ video languages w1) as [[subs2|e] w2]
      eqn:Hrest; [| done].
    intros [= <- <-]. apply Forall_app. split.
    + apply query_stamped in Hquery.
      eapply Forall_impl; [exact Hquery |]. intros s Hs.
      destruct Hs as (Hl & Hs). rewrite Hl.
      split; [by left |]. by split.
    + eapply Forall_impl; [exact (IH _ _ Hrest) |]. intros s [Hl Hs].
      split; [by right | done].
Qed.

(** X14: every subtitle that [list_subtitles] returns has one of the
    requested languages, the season, episode, [tvdb_id], series and year
    of the video, and no content. *)
Theorem list_subtitles_stamped (video : Video) (languages : list Language)
    (w w' : World) (subs : list BierDopjeSubtitle) :
  list_subtitles net fromstring lower resolver video languages w = (Ok subs, w') →
  Forall (λ s, BierDopjeSubtitle.language s ∈ languages
               ∧ stamped (BierDopjeSubtitle.language s) (Video.season video)
                   (Video.episode video) (Video.tvdb_id video)
                   (Video.series video) (Video.year video) s) subs.
Proof. apply list_subtitles_from_video. Qed.

(** X15: scored against the video they were listed for, the subtitles
    of [list_subtitles] always get the tag [year] from the comparisons, and
    get each of [tvdb_id], [series], [season] and [episode] exactly when
    the video has that field and it is true as a condition: the
    comparisons do not tell these subtitles apart. *)
Theorem own_candidates_match (video : Video) (languages : list Language)
    (w w' : World) (subs : list BierDopjeSubtitle) :
  list_subtitles net fromstring lower resolver video languages w = (Ok subs, w') →
  Forall (λ s,
            "year" ∈ BierDopjeSubtitle.direct_matches s video
            ∧ ("tvdb_id" ∈ BierDopjeSubtitle.direct_matches s video ↔
                 Py.truthy_int (Video.tvdb_id video) = true)
            ∧ ("series" ∈ BierDopjeSubtitle.direct_matches s video ↔
                 Py.truthy_str (Video.series video) = true)
            ∧ ("season" ∈ BierDopjeSubtitle.direct_matches s video ↔
                 Py.truthy_int (Video.season video) = true)
            ∧ ("episode" ∈ BierDopjeSubtitle.direct_matches s video ↔
                 Py.truthy_int (Video.episode video) = true)) subs.
Proof.
  intros Hrun. apply list_subtitles_from_video in Hrun.
  eapply Forall_impl; [exact Hrun |]. clear Hrun.
  intros s (_ & _ & Hseason & Hepisode & Htvdb & Hseries & Hyear & _).
  rewrite !direct_matches_spec, Hseason, Hepisode, Htvdb, Hseries, Hyear.
  repeat split.
  - repeat right. done.
  - intros [(_ & ? & _)|[(? & _)|[(? & _)|[(? & _)|(? & _)]]]];
      done || discriminate.
  - intros Htrue. by left.
  - intros [(? & _)|[(_ & ? & _)|[(? & _)|[(? & _)|(? & _)]]]];
      done || discriminate.
  - intros Htrue. right. by left.
  - intros [(? & _)|[(? & _)|[(_ & ? & _)|[(? & _)|(? & _)]]]];
      done || discriminate.
  - intros Htrue. right. right. by left.
  - intros [(? & _)|[(? & _)|[(? & _)|[(_ & ? & _)|(? & _)]]]];
      done || discriminate.
  - intros Htrue. right. right. right. by left.
Qed.

End ListRuns.

(** ** Runs of [download_subtitle] *)

Section DownloadRuns.

Variable net : list string → string → HttpOutcome.
Variable detect : bytes → option string.
Variable decoder : string → option (bytes → string).
Variable is_valid_subtitle : string → bool.

Ltac run_cases sub w :=
  destruct (BierDopjeSubtitle.download_link sub) as [url|] eqn:Hlink;
  [ rewrite (download_subtitle_run net detect decoder is_valid_subtitle
               sub w url Hlink);
    destruct (net (requests w) url) as [|st c] eqn:Hout;
    [| destruct (Z.eqb_spec st 429) as [-> | H429];
       [| destruct (Z.eqb_spec st 200) as [-> | H200]; simpl;
          [ destruct (decode decoder c (detect c)) as [text|e] eqn:Hdec;
            [ destruct (is_valid_subtitle text) eqn:Hvalid |] |] ] ]
  | rewrite (download_subtitle_no_link net detect decoder is_valid_subtitle
               sub w Hlink) ].

(** X16: [download_subtitle] returns exactly when the link is answered
    with status 200, the payload is decoded and the validator accepts the
    text; the subtitle then has that text as content, and one request has
    been sent, to the link. *)
Theorem download_subtitle_success (sub : BierDopjeSubtitle) (w : World) :
  let run :=
    download_subtitle net detect decoder is_valid_subtitle (sub, w) in
  run.1 = Ok tt ↔
  ∃ url c text,
    BierDopjeSubtitle.download_link sub = Some url
    ∧ net (requests w) url = Response 200 c
    ∧ decode decoder c (detect c) = Ok text
    ∧ is_valid_subtitle text = true
    ∧ run.2 = (BierDopjeSubtitle.set_content sub text, sent w url).
Proof.
  cbv zeta. split.
  - run_cases sub w; try done. intros _. by exists url, c, text.
  - intros (url & c & text & Hlink & Hout & Hdec & Hvalid & _).
    rewrite (download_subtitle_run _ _ _ _ _ _ url Hlink), Hout. simpl.
    by rewrite Hdec, Hvalid.
Qed.

(** X17: [InvalidSubtitle] is raised only for a payload that was fetched
    with status 200, was decoded, and was rejected by the validator. *)
Theorem download_subtitle_invalid_iff (sub : BierDopjeSubtitle) (w : World) :
  (download_subtitle net detect decoder is_valid_subtitle (sub, w)).1
  = Raise InvalidSubtitle ↔
  ∃ url c text,
    BierDopjeSubtitle.download_link sub = Some url
    ∧ net (requests w) url = Response 200 c
    ∧ decode decoder c (detect c) = Ok text
    ∧ is_valid_subtitle text = false.
Proof.
  split.
  - run_cases sub w; try done.
    + intros _. by exists url, c, text.
    + by destruct (decode_raises _ _ _ _ Hdec) as [-> | ->].
  - intros (url & c & text & Hlink & Hout & Hdec & Hvalid).
    rewrite (download_subtitle_run _ _ _ _ _ _ url Hlink), Hout. simpl.
    by rewrite Hdec, Hvalid.
Qed.

(** X18: the two failures of decoding.  [TypeError] is raised exactly
    when the detector proposes no encoding for a payload fetched with
    status 200, [LookupError] exactly when it proposes an encoding that
    has no codec; the validator is not consulted in either case. *)
Theorem download_subtitle_decode_errors (sub : BierDopjeSubtitle)
    (w : World) :
  let run :=
    download_subtitle net detect decoder is_valid_subtitle (sub, w) in
  (run.1 = Raise TypeError ↔
     ∃ url c, BierDopjeSubtitle.download_link sub = Some url
              ∧ net (requests w) url = Response 200 c
              ∧ detect c = None)
  ∧ (run.1 = Raise LookupError ↔
       ∃ url c name, BierDopjeSubtitle.download_link sub = Some url
                     ∧ net (requests w) url = Response 200 c
                     ∧ detect c = Some name
                     ∧ decoder name = None).
Proof.
  cbv zeta. split; split.
  - run_cases sub w; try done. intros [= ->]. exists url, c.
    repeat split; try done. unfold decode in Hdec.
    destruct (detect c) as [name|]; [| done].
    by destruct (decoder name).
  - intros (url & c & Hlink & Hout & Hdetect).
    rewrite (download_subtitle_run _ _ _ _ _ _ url Hlink), Hout. simpl.
    by rewrite Hdetect.
  - run_cases sub w; try done. intros [= ->]. unfold decode in Hdec.
    destruct (detect c) as [name|] eqn:Hdetect; [| done].
    destruct (decoder name) eqn:Hcodec; [done |].
    by exists url, c, name.
  - intros (url & c & name & Hlink & Hout & Hdetect & Hcodec).
    rewrite (download_subtitle_run _ _ _ _ _ _ url Hlink), Hout. simpl.
    rewrite Hdetect. unfold decode. by rewrite Hcodec.
Qed.


(** X20: whatever the outcome, [download_subtitle] leaves every field of
    the subtitle but the content as it was, so that the subtitle scores
    the same against any video before and after the download. *)
Theorem download_subtitle_keeps_fields (sub : BierDopjeSubtitle)
    (w : World) :
  let sub' :=
    (download_subtitle net detect decoder is_valid_subtitle (sub, w)).2.1 in
  BierDopjeSubtitle.language sub' = BierDopjeSubtitle.language sub
  ∧ BierDopjeSubtitle.season sub' = BierDopjeSubtitle.season sub
  ∧ BierDopjeSubtitle.episode sub' = BierDopjeSubtitle.episode sub
  ∧ BierDopjeSubtitle.tvdb_id sub' = BierDopjeSubtitle.tvdb_id sub
  ∧ BierDopjeSubtitle.series sub' = BierDopjeSubtitle.series sub
  ∧ BierDopjeSubtitle.year sub' = BierDopjeSubtitle.year sub
  ∧ BierDopjeSubtitle.filename sub' = BierDopjeSubtitle.filename sub
  ∧ BierDopjeSubtitle.download_link sub'
    = BierDopjeSubtitle.download_link sub
  ∧ ∀ (Guess : Type) (guess_episode_info : string → Guess)
      (compute_guess_matches : Video → Guess → gset string) (video : Video),
      BierDopjeSubtitle.compute_matches Guess guess_episode_info
        compute_guess_matches sub' video
      = BierDopjeSubtitle.compute_matches Guess guess_episode_info
          compute_guess_matches sub video.
Proof.
  cbv zeta.
  destruct (download_subtitle net detect decoder is_valid_subtitle (sub, w))
    as [r [sub' w']] eqn:Hrun.
  apply download_subtitle_assigns_last in Hrun
    as [[-> _] | (_ & text & _ & ->)]; simpl; done.
Qed.

End DownloadRuns.

(** ** The tags of the comparisons *)

(** X21: the comparisons of [compute_matches] add no tag but [tvdb_id],
    [series], [season], [episode] and [year]; any other tag of the result
    comes from the filename guess. *)
Theorem direct_matches_universe (C : BierDopjeSubtitle) (V : Video)
    (t : string) :
  (t ∈ BierDopjeSubtitle.direct_matches C V →
   t ∈ ["tvdb_id"; "series"; "season"; "episode"; "year"])
  ∧ ∀ (Guess : Type) (guess_episode_info : string → Guess)
      (compute_guess_matches : Video → Guess → gset string)
      (m : gset string),
      BierDopjeSubtitle.compute_matches Guess guess_episode_info
        compute_guess_matches C V = Ok m →
      t ∈ m →
      t ∉ ["tvdb_id"; "series"; "season"; "episode"; "year"] →
      ∃ name, BierDopjeSubtitle.filename C = Some name
              ∧ t ∈ compute_guess_matches V
                      (guess_episode_info (name +:+ ".mkv")).
Proof.
  assert (Hdirect : t ∈ BierDopjeSubtitle.direct_matches C V →
                    t ∈ ["tvdb_id"; "series"; "season"; "episode"; "year"]).
  { rewrite direct_matches_spec.
    intros [(-> & _)|[(-> & _)|[(-> & _)|[(-> & _)|(-> & _)]]]];
      repeat (apply list_elem_of_here || apply list_elem_of_further). }
  split; [done |].
  intros Guess guess_episode_info compute_guess_matches m Hrun Hin Hother.
  unfold BierDopjeSubtitle.compute_matches in Hrun.
  destruct (BierDopjeSubtitle.filename C) as [name|]; [| done].
  injection Hrun as <-. exists name. split; [done |].
  apply elem_of_union in Hin as [Hin | Hin]; [| done].
  by destruct Hother; apply Hdirect.
Qed.

(** The answer for the show 75 in English lists two well-formed
    entries. *)
Lemma query_reads_every_entry_witness :
  ∃ subs,
    Script.query eng (Some 1) (Some 2) (Some 75) (Some "Lost") (Some 2004)
      Mock.start
    = (Ok subs,
       sent Mock.start
         (base_url +:+ subs_url 75 (Some 1) (Some 2) (alpha2 eng) "true"))
    ∧ length subs = length (children (Elem "results" None Script.subs_entries))
    ∧ Forall2 read_from
        (children (Elem "results" None Script.subs_entries)) subs
    ∧ Forall (stamped eng (Some 1) (Some 2) (Some 75) (Some "Lost")
                (Some 2004)) subs.
Proof.
  apply (query_reads_every_entry Script.net Script.fromstring
           Py.lower Script.find_show_id eng (Some 1) (Some 2) 75 (Some "Lost")
           (Some 2004) Mock.start (Mock.body "subs")
           (Mock.answer "true" Script.subs_entries)
           (Mock.leaf "status" "true")
           (Elem "results" None Script.subs_entries)).
  - reflexivity.
  - reflexivity.
  - reflexivity.
  - reflexivity.
  - discriminate.
  - reflexivity.
  - repeat constructor; by eexists.
Defined.

(** The answer for the show 77 has an entry without a download link. *)
Lemma query_malformed_entry_witness :
  Script.query eng (Some 1) (Some 2) (Some 77) (Some "Lost") (Some 2004)
    Mock.start
  = (Raise AttributeError,
     sent Mock.start
       (base_url +:+ subs_url 77 (Some 1) (Some 2) (alpha2 eng) "true")).
Proof.
  apply (query_malformed_entry Script.net Script.fromstring
           Py.lower Script.find_show_id eng (Some 1) (Some 2) 77 (Some "Lost")
           (Some 2004) Mock.start (Mock.body "broken")
           (Mock.answer "true" Script.broken_entries)
           (Mock.leaf "status" "true")
           (Elem "results" None Script.broken_entries)).
  - reflexivity.
  - reflexivity.
  - reflexivity.
  - reflexivity.
  - discriminate.
  - reflexivity.
  - apply Exists_cons_tl, Exists_cons_hd. by right.
Defined.

(** The answer for the show 78 has the status flag ['false']. *)
Lemma query_no_subtitles_witness :
  Script.query eng (Some 1) (Some 2) (Some 78) (Some "Lost") (Some 2004)
    Mock.start
  = (Ok [],
     sent Mock.start
       (base_url +:+ subs_url 78 (Some 1) (Some 2) (alpha2 eng) "true")).
Proof.
  apply (query_no_subtitles Script.net Script.fromstring
           Py.lower Script.find_show_id eng (Some 1) (Some 2) 78 (Some "Lost")
           (Some 2004) Mock.start (Mock.body "none") Script.none_doc
           (Mock.leaf "status" "false")); reflexivity.
Defined.

(** For the show 75 the English query succeeds and the Dutch one is
    answered with status 429: the third language is never asked for. *)
Lemma list_subtitles_stops_at_failure_witness :
  ∃ w2,
    Script.list_subtitles (Script.known 75) ([eng] ++ nld :: [eng])
      Mock.start
    = (Raise (ProviderNotAvailable "Too Many Requests"), w2)
    ∧ length (requests w2) = 2%nat.
Proof.
  eexists. split.
  - eapply (list_subtitles_stops_at_failure Script.net Script.fromstring
              Py.lower Script.find_show_id (Script.known 75) [eng] [eng] nld
              Mock.start).
    + vm_compute. reflexivity.
    + vm_compute. reflexivity.
  - reflexivity.
Defined.

(** For the show 76 both queries succeed: two requests, English first. *)
Lemma list_subtitles_requests_witness :
  let url := λ l : Language,
    base_url +:+ subs_url 76 (Video.season (Script.known 76))
                   (Video.episode (Script.known 76)) (alpha2 l) "true" in
  let run := Script.list_subtitles (Script.known 76) [eng; nld] Mock.start in
  (∃ k, (k ≤ length [eng; nld])%nat
        ∧ requests run.2
          = (requests Mock.start ++ (url <$> take k [eng; nld]))%list)
  ∧ (∀ subs, run.1 = Ok subs →
       requests run.2 = (requests Mock.start ++ (url <$> [eng; nld]))%list).
Proof.
  apply (list_subtitles_requests Script.net Script.fromstring
           Py.lower Script.find_show_id (Script.known 76) 76 [eng; nld] Mock.start).
  reflexivity.
Defined.

(** The four subtitles listed for the show 76. *)
Lemma list_subtitles_stamped_witness :
  ∃ subs w',
    Script.list_subtitles (Script.known 76) [eng; nld] Mock.start
    = (Ok subs, w')
    ∧ length subs = 4%nat
    ∧ Forall (λ s, BierDopjeSubtitle.language s ∈ [eng; nld]
                   ∧ stamped (BierDopjeSubtitle.language s) (Some 1)
                       (Some 2) (Some 76) (Some "Lost") (Some 2004) s) subs.
Proof.
  eexists _, _. split; [vm_compute; reflexivity |].
  split; [reflexivity |].
  eapply (list_subtitles_stamped Script.net Script.fromstring
           Py.lower Script.find_show_id (Script.known 76) [eng; nld] Mock.start).
  vm_compute. reflexivity.
Defined.

(** The four subtitles listed for the show 76 all get the five tags. *)
Lemma own_candidates_match_witness :
  ∃ subs w',
    Script.list_subtitles (Script.known 76) [eng; nld] Mock.start
    = (Ok subs, w')
    ∧ length subs = 4%nat
    ∧ Forall (λ s,
        "year" ∈ BierDopjeSubtitle.direct_matches s (Script.known 76)
        ∧ ("tvdb_id" ∈ BierDopjeSubtitle.direct_matches s (Script.known 76)
           ↔ Py.truthy_int (Video.tvdb_id (Script.known 76)) = true)
        ∧ ("series" ∈ BierDopjeSubtitle.direct_matches s (Script.known 76)
           ↔ Py.truthy_str (Video.series (Script.known 76)) = true)
        ∧ ("season" ∈ BierDopjeSubtitle.direct_matches s (Script.known 76)
           ↔ Py.truthy_int (Video.season (Script.known 76)) = true)
        ∧ ("episode" ∈ BierDopjeSubtitle.direct_matches s (Script.known 76)
           ↔ Py.truthy_int (Video.episode (Script.known 76)) = true)) subs.
Proof.
  eexists _, _. split; [vm_compute; reflexivity |].
  split; [reflexivity |].
  eapply (own_candidates_match Script.net Script.fromstring
           Py.lower Script.find_show_id (Script.known 76) [eng; nld] Mock.start).
  vm_compute. reflexivity.
Defined.
